(** * linux-jack: the JACK input source of the capture host

    A shallow embedding of [plugins/linux-jack/jack-input.c]: the session
    record, the lifecycle hooks [jack_create], [jack_update], [jack_destroy],
    the defaults hook, the property panel and its channel-count callback.

    The hooks talk to two collaborators that live in other files: the host
    library (settings objects, property panels, allocation) and the JACK
    wrapper ([jack_init], [deactivate_jack]).  Their calls are recorded in a
    log of [event]s so that statements about "which calls were made, in which
    order" can be read off the result of a hook. *)

From Stdlib Require Import ZArith String List Bool Lia.
From stdpp Require Import gmap strings list fin_maps.
Import ListNotations.

Open Scope string_scope.
Open Scope Z_scope.
Open Scope list_scope.

(** ** Machine integers *)

(** [(int) x] for a [long long] x: the low 32 bits, read as two's complement. *)
Definition to_int (z : Z) : Z := (z + 2 ^ 31) mod 2 ^ 32 - 2 ^ 31.

Definition int_range (z : Z) : Prop := - 2 ^ 31 <= z < 2 ^ 31.

(** ** Settings objects of the host ([obs_data_t]) *)

Module Settings.

Inductive obs_value :=
| VInt (n : Z)
| VBool (b : bool)
| VString (s : string).

(** Modelled from the spec: the host's [obs_data_t] is declared outside the
    plugin; the spec describes it as a schema of string keys, each with a
    value and a default.  A settings object holds the values the user set
    and the defaults a plugin registered. *)
Record obs_data := mk_obs_data {
  user_values : gmap string obs_value;
  default_values : gmap string obs_value
}.

Definition empty_data : obs_data := mk_obs_data ∅ ∅.

(** The value a getter sees: the user's value, else the default. *)
Definition item (s : obs_data) (name : string) : option obs_value :=
  match user_values s !! name with
  | Some v => Some v
  | None => default_values s !! name
  end.

(** Modelled from the spec: [obs_data_get_int] of the host; a key that is
    absent or holds no number reads as 0. *)
Definition obs_data_get_int (s : obs_data) (name : string) : Z :=
  match item s name with
  | Some (VInt n) => n
  | _ => 0
  end.

(** Modelled from the spec: [obs_data_get_bool] of the host; a key that is
    absent or holds no boolean reads as false. *)
Definition obs_data_get_bool (s : obs_data) (name : string) : bool :=
  match item s name with
  | Some (VBool b) => b
  | _ => false
  end.

Definition obs_data_set_int (s : obs_data) (name : string) (n : Z) : obs_data :=
  mk_obs_data (<[name := VInt n]> (user_values s)) (default_values s).

Definition obs_data_set_bool (s : obs_data) (name : string) (b : bool) : obs_data :=
  mk_obs_data (<[name := VBool b]> (user_values s)) (default_values s).

(** Modelled from the spec: [obs_data_set_default_int] of the host records
    the default of one key and touches nothing else. *)
Definition obs_data_set_default_int (s : obs_data) (name : string) (n : Z) : obs_data :=
  mk_obs_data (user_values s) (<[name := VInt n]> (default_values s)).

(** Modelled from the spec: [obs_data_set_default_bool] of the host. *)
Definition obs_data_set_default_bool (s : obs_data) (name : string) (b : bool) : obs_data :=
  mk_obs_data (user_values s) (<[name := VBool b]> (default_values s)).

End Settings.
Import Settings.

(** ** Plugin defaults *)

(** [jack_input_defaults]: two calls, in the order of the source. *)
Definition jack_input_defaults (settings : obs_data) : obs_data :=
  let settings := obs_data_set_default_int settings "channels" 2 in
  obs_data_set_default_bool settings "startjack" false.

(** ** Calls to the collaborators *)

(** One entry per call that leaves the plugin file.  [Call_jack_init] carries
    the status the wrapper returned; [Call_obs_property_modified] carries the
    property that was looked up (none when the name is not in the panel). *)
Inductive event :=
| Call_obs_data_get_bool (name : string)
| Call_obs_data_get_int (name : string)
| Call_obs_source_get_name
| Call_bzalloc
| Call_bstrdup (s : string)
| Call_bfree_device
| Call_bfree_data
| Call_pthread_mutex_init
| Call_pthread_mutex_destroy
| Call_pthread_mutex_lock
| Call_pthread_mutex_unlock
| Call_deactivate_jack
| Call_jack_init (status : Z)
| Call_obs_property_modified (p : option string).

Definition is_deactivate (e : event) : bool :=
  match e with Call_deactivate_jack => true | _ => false end.

Definition is_init (e : event) : bool :=
  match e with Call_jack_init _ => true | _ => false end.

Definition is_free (e : event) : bool :=
  match e with Call_bfree_device | Call_bfree_data => true | _ => false end.

Definition is_settings_read (e : event) : bool :=
  match e with
  | Call_obs_data_get_bool _ | Call_obs_data_get_int _ => true
  | _ => false
  end.

(** The calls into the JACK wrapper, in order. *)
Definition jack_calls (log : list event) : list event :=
  List.filter (fun e => is_deactivate e || is_init e) log.

Definition count_calls (f : event -> bool) (log : list event) : nat :=
  length (List.filter f log).

(** ** Property panels of the host ([obs_properties_t]) *)

Module Panel.

Inductive property_type :=
| PropInt (min max step : Z)
| PropBool
| PropEditableList.

(** The one function the plugin installs as a modified-callback. *)
Inductive modified_callback :=
| Cb_jack_input_channel_count_changed.

Record obs_property := mk_property {
  prop_name : string;
  prop_desc : string;
  prop_type : property_type;
  prop_visible : bool;
  prop_modified : option modified_callback
}.

(** The panel keeps its entries in the order they were added. *)
Definition obs_properties := list obs_property.

(** A property pointer: the name of the entry it points to, or NULL. *)
Definition property_ptr := option string.

Definition obs_properties_create : obs_properties := [].

Definition has_prop (props : obs_properties) (name : string) : bool :=
  existsb (fun p => String.eqb (prop_name p) name) props.

(** Modelled from the spec: [obs_properties_get] of the host, a look-up by
    name that yields NULL when the panel has no such entry. *)
Definition obs_properties_get (props : obs_properties) (name : string) : property_ptr :=
  if has_prop props name then Some name else None.

Definition lookup_property (props : obs_properties) (name : string) : option obs_property :=
  List.find (fun p => String.eqb (prop_name p) name) props.

(** Modelled from the spec: the [obs_properties_add_*] family of the host.
    A new entry is appended, visible, without callback; names are the keys of
    the panel, so a name that is present is refused with NULL. *)
Definition add_property (props : obs_properties) (name desc : string)
    (ty : property_type) : obs_properties * property_ptr :=
  if has_prop props name then (props, None)
  else (props ++ [mk_property name desc ty true None], Some name).

Definition obs_properties_add_int (props : obs_properties) (name desc : string)
    (min max step : Z) : obs_properties * property_ptr :=
  add_property props name desc (PropInt min max step).

Definition obs_properties_add_bool (props : obs_properties) (name desc : string)
    : obs_properties * property_ptr :=
  add_property props name desc PropBool.

Definition obs_properties_add_editable_list (props : obs_properties)
    (name desc : string) : obs_properties * property_ptr :=
  add_property props name desc PropEditableList.

Definition update_property (f : obs_property -> obs_property) (name : string)
    (props : obs_properties) : obs_properties :=
  List.map (fun p => if String.eqb (prop_name p) name then f p else p) props.

Definition with_visible (visible : bool) (p : obs_property) : obs_property :=
  mk_property (prop_name p) (prop_desc p) (prop_type p) visible (prop_modified p).

Definition with_modified (cb : modified_callback) (p : obs_property) : obs_property :=
  mk_property (prop_name p) (prop_desc p) (prop_type p) (prop_visible p) (Some cb).

(** Modelled from the spec: [obs_property_set_visible] of the host marks the
    entry shown or hidden; on NULL it does nothing. *)
Definition obs_property_set_visible (p : property_ptr) (visible : bool)
    (props : obs_properties) : obs_properties :=
  match p with
  | Some name => update_property (with_visible visible) name props
  | None => props
  end.

(** Modelled from the spec: [obs_property_set_modified_callback] of the host;
    on NULL it does nothing. *)
Definition obs_property_set_modified_callback (p : property_ptr)
    (cb : modified_callback) (props : obs_properties) : obs_properties :=
  match p with
  | Some name => update_property (with_modified cb) name props
  | None => props
  end.

(** Whether the entry of that name is shown; [None] when there is none. *)
Definition visible_of (props : obs_properties) (name : string) : option bool :=
  prop_visible <$> lookup_property props name.

End Panel.
Import Panel.

(** ** The capture session ([struct jack_data]) *)

(** A source of the host, by its address. *)
Definition obs_source_t := nat.

(** A client of the audio server, by its address. *)
Definition jack_client_t := positive.

(** Modelled from the spec: [struct jack_data] is declared in the wrapper's
    header, outside this file; these are the fields the hooks read and write.
    A NULL pointer field is [None]; the mutex shows in the log of calls. *)
Record jack_data := mk_jack_data {
  source : obs_source_t;
  device : option string;
  channels : Z;
  start_jack_server : bool;
  jack_client : option jack_client_t
}.

Definition set_source (v : obs_source_t) (d : jack_data) : jack_data :=
  mk_jack_data v (device d) (channels d) (start_jack_server d) (jack_client d).

Definition set_device (v : option string) (d : jack_data) : jack_data :=
  mk_jack_data (source d) v (channels d) (start_jack_server d) (jack_client d).

Definition set_channels (v : Z) (d : jack_data) : jack_data :=
  mk_jack_data (source d) (device d) v (start_jack_server d) (jack_client d).

Definition set_start_jack_server (v : bool) (d : jack_data) : jack_data :=
  mk_jack_data (source d) (device d) (channels d) v (jack_client d).

Definition set_jack_client (v : option jack_client_t) (d : jack_data) : jack_data :=
  mk_jack_data (source d) (device d) (channels d) (start_jack_server d) v.

(** What one call of [jack_init] yields: its status and the client handle it
    leaves in the session. *)
Record init_result := mk_init_result {
  init_status : Z;
  init_client : option jack_client_t
}.

(** The world around the plugin at the time of a call: the names the host
    gives its sources, the host's translation table, and what the audio
    server answers when the wrapper tries to connect a session. *)
Record env := mk_env {
  source_name : obs_source_t -> string;
  module_text : string -> string;
  jack_server : jack_data -> init_result
}.

(** ** A state monad over the session and the log *)

Definition M (A : Type) : Type := jack_data -> list event -> A * jack_data * list event.

Definition ret {A} (a : A) : M A := fun d log => (a, d, log).

Definition bind {A B} (m : M A) (k : A -> M B) : M B :=
  fun d log => let '(a, d', log') := m d log in k a d' log'.

Declare Scope session_scope.
Delimit Scope session_scope with session.
Notation "x <- c1 ;; c2" := (bind c1 (fun x => c2))
  (at level 100, c1 at next level, c2 at level 200, right associativity) : session_scope.
Notation "c1 ;; c2" := (bind c1 (fun _ => c2))
  (at level 100, c2 at level 200, right associativity) : session_scope.

Definition call (e : event) : M unit := fun d log => (tt, d, log ++ [e]).

Definition load {A} (field : jack_data -> A) : M A := fun d log => (field d, d, log).

Definition store (upd : jack_data -> jack_data) : M unit := fun d log => (tt, upd d, log).

Definition when (b : bool) (m : M unit) : M unit := if b then m else ret tt.

(** ** The JACK wrapper *)

(** Modelled from the spec: [deactivate_jack] is defined in the wrapper,
    outside this file.  The spec has it close the audio client: the client
    handle is destroyed by it and is null while the session is deactivated. *)
Definition deactivate_jack : M unit :=
  (call Call_deactivate_jack ;;
   store (set_jack_client None))%session.

(** Modelled from the spec: [jack_init] is defined in the wrapper, outside
    this file.  The spec has it open the audio client and return a status; the
    handle it leaves and the status are the audio server's answer. *)
Definition jack_init (e : env) : M Z :=
  (r <- load (jack_server e) ;;
   store (set_jack_client (init_client r)) ;;
   call (Call_jack_init (init_status r)) ;;
   ret (init_status r))%session.

(** ** Host calls made by the session hooks *)

Definition read_bool (settings : obs_data) (name : string) : M bool :=
  (call (Call_obs_data_get_bool name) ;;
   ret (obs_data_get_bool settings name))%session.

Definition read_int (settings : obs_data) (name : string) : M Z :=
  (call (Call_obs_data_get_int name) ;;
   ret (obs_data_get_int settings name))%session.

(** Modelled from the spec: [obs_source_get_name] of the host; a source that
    the host hands to a plugin has a name. *)
Definition obs_source_get_name (e : env) (src : obs_source_t) : M string :=
  (call Call_obs_source_get_name ;;
   ret (source_name e src))%session.

(** [bstrdup]: a fresh copy of the string. *)
Definition bstrdup (s : string) : M (option string) :=
  (call (Call_bstrdup s) ;;
   ret (Some s))%session.

(** ** The lifecycle hooks *)

(** The body of [jack_update] once [data] is known not to be NULL.  The local
    [settings_changed] is threaded through as [changed1], [changed2],
    [changed3], one per test of the source. *)
Definition jack_update_data (e : env) (settings : obs_data) : M unit :=
  (new_jack_start_server <- read_bool settings "startjack" ;;
   new_channel_count_ll <- read_int settings "channels" ;;
   let new_channel_count := to_int new_channel_count_ll in
   old_start <- load start_jack_server ;;
   changed1 <-
     (if negb (Bool.eqb new_jack_start_server old_start)
      then (store (set_start_jack_server new_jack_start_server) ;; ret true)
      else ret false) ;;
   old_channels <- load channels ;;
   let changed2 := if negb (new_channel_count =? old_channels) then true else changed1 in
   src <- load source ;;
   new_device <- obs_source_get_name e src ;;
   old_device <- load device ;;
   changed3 <-
     (match old_device with
      | Some dev =>
          if negb (String.eqb dev new_device)
          then (call Call_bfree_device ;;
                copy <- bstrdup new_device ;;
                store (set_device copy) ;;
                ret true)
          else ret changed2
      | None =>
          (copy <- bstrdup new_device ;;
           store (set_device copy) ;;
           ret true)
      end) ;;
   when changed3
     (deactivate_jack ;;
      store (set_channels new_channel_count) ;;
      status <- jack_init e ;;
      when (negb (status =? 0)) deactivate_jack))%session.

(** [jack_update]: the session behind [vptr] after the call (none for a NULL
    handle) and the calls made. *)
Definition jack_update (e : env) (vptr : option jack_data) (settings : obs_data)
    : option jack_data * list event :=
  match vptr with
  | None => (None, [])
  | Some data =>
      let '(_, data', log) := jack_update_data e settings data [] in
      (Some data', log)
  end.

(** [jack_destroy]: the session is gone afterwards; what remains is the log. *)
Definition jack_destroy (vptr : option jack_data) : list event :=
  match vptr with
  | None => []
  | Some data =>
      let '(_, data', log) := deactivate_jack data [] in
      log
      ++ (match device data' with Some _ => [Call_bfree_device] | None => [] end)
      ++ [Call_pthread_mutex_destroy; Call_bfree_data]
  end.

(** The block [bzalloc] returns: every field zero. *)
Definition bzalloc_jack_data : jack_data := mk_jack_data 0%nat None 0 false None.

(** [jack_create]: the handle returned (NULL is [None]) and the calls made. *)
Definition jack_create (e : env) (settings : obs_data) (src : obs_source_t)
    : option jack_data * list event :=
  let data := bzalloc_jack_data in
  let data := set_source src data in
  let data := set_channels (-1) data in
  let log0 := [Call_bzalloc; Call_pthread_mutex_init] in
  match jack_update e (Some data) settings with
  | (Some data, log) =>
      match jack_client data with
      | None => (None, log0 ++ log ++ jack_destroy (Some data))
      | Some _ => (Some data, log0 ++ log)
      end
  | (None, log) => (None, log0 ++ log)
  end.

(** ** The property panel *)

Definition JACK_INPUT_MAX_PORTS : Z := 8.

Definition channel_ports_property_names : list string :=
  [ "ports connected to channel 1";
    "ports connected to channel 2";
    "ports connected to channel 3";
    "ports connected to channel 4";
    "ports connected to channel 5";
    "ports connected to channel 6";
    "ports connected to channel 7";
    "ports connected to channel 8" ].

(** [channel_ports_property_names[i]]; an index outside the array has no
    defined value. *)
Definition port_name (i : Z) : option string :=
  if i <? 0 then None else channel_ports_property_names !! Z.to_nat i.

(** [for (int i = lo; i < hi; ++i) body]: [n] counts the iterations left.  The
    loop stops with [None] as soon as the body has no defined result. *)
Fixpoint for_loop {S : Type} (n : nat) (i : Z) (body : Z -> S -> option S) (s : S)
    : option S :=
  match n with
  | O => Some s
  | Datatypes.S n' =>
      match body i s with
      | Some s' => for_loop n' (i + 1) body s'
      | None => None
      end
  end.

Definition for_range {S : Type} (lo hi : Z) (body : Z -> S -> option S) (s : S)
    : option S :=
  for_loop (Z.to_nat (hi - lo)) lo body s.

(** Modelled from the spec: [obs_property_modified] of the host refreshes the
    entry; the refresh is recorded in the log. *)
Definition obs_property_modified (p : property_ptr) (log : list event) : list event :=
  log ++ [Call_obs_property_modified p].

(** The body shared by the two loops of the callback. *)
Definition set_port_visible (visible : bool) (i : Z)
    (st : obs_properties * list event) : option (obs_properties * list event) :=
  name ← port_name i;
  let channel_ports_property := obs_properties_get (fst st) name in
  let props := obs_property_set_visible channel_ports_property visible (fst st) in
  Some (props, obs_property_modified channel_ports_property (snd st)).

(** [jack_input_channel_count_changed]: the value returned, the panel and the
    calls made; [None] when the run reads outside the array of names. *)
Definition jack_input_channel_count_changed (props : obs_properties)
    (p : property_ptr) (settings : obs_data)
    : option (bool * obs_properties * list event) :=
  let channels := to_int (obs_data_get_int settings "channels") in
  st ← for_range 0 channels (set_port_visible true)
         (props, [Call_obs_data_get_int "channels"]);
  st ← for_range channels JACK_INPUT_MAX_PORTS (set_port_visible false) st;
  Some (true, fst st, snd st).

(** The loop of [jack_input_properties] that adds one editable list per
    name of the array. *)
Definition add_port_list (i : Z) (props : obs_properties) : option obs_properties :=
  name ← port_name i;
  Some (fst (obs_properties_add_editable_list props name name)).

(** [jack_input_properties]: the panel and the calls made; [None] when
    [vptr] is NULL, whose mutex the function locks without a test. *)
Definition jack_input_properties (e : env) (vptr : option jack_data)
    : option (obs_properties * list event) :=
  let props := obs_properties_create in
  let '(props, _) :=
    obs_properties_add_int props "channels" (module_text e "Channels") 1 8 1 in
  let '(props, channels) :=
    obs_properties_add_int props "channels" (module_text e "Channels")
      1 JACK_INPUT_MAX_PORTS 1 in
  let props :=
    obs_property_set_modified_callback channels
      Cb_jack_input_channel_count_changed props in
  let '(props, _) :=
    obs_properties_add_bool props "startjack" (module_text e "StartJACKServer") in
  _ ← vptr;
  props ← for_range 0 JACK_INPUT_MAX_PORTS add_port_list props;
  Some (props, [Call_pthread_mutex_lock; Call_pthread_mutex_unlock]).

(** The shown/hidden state of the eight port lists, by index. *)
Definition port_visibility (props : obs_properties) : list (option bool) :=
  List.map (visible_of props) channel_ports_property_names.

(** The panel has an entry for each of the eight names. *)
Definition has_all_port_lists (props : obs_properties) : bool :=
  forallb (has_prop props) channel_ports_property_names.

(** Run the callback and keep the panel. *)
Definition channel_count_changed_panel (settings : obs_data)
    (props : obs_properties) : option obs_properties :=
  r ← jack_input_channel_count_changed props None settings;
  Some (snd (fst r)).

(** ** Sessions the host can hold *)

(** A session is reachable when [jack_create] returned it or [jack_update]
    left it, starting from a reachable one; the world may differ from call to
    call. *)
Inductive reachable : jack_data -> Prop :=
| reachable_create e settings src data :
    fst (jack_create e settings src) = Some data ->
    reachable data
| reachable_update e settings data data' :
    reachable data ->
    fst (jack_update e (Some data) settings) = Some data' ->
    reachable data'.

(** The same, when every settings object passed in carries a channel count
    between 1 and 8. *)
Definition channels_in_range (settings : obs_data) : Prop :=
  1 <= obs_data_get_int settings "channels" <= 8.

Inductive reachable_in_range : jack_data -> Prop :=
| in_range_create e settings src data :
    channels_in_range settings ->
    fst (jack_create e settings src) = Some data ->
    reachable_in_range data
| in_range_update e settings data data' :
    channels_in_range settings ->
    reachable_in_range data ->
    fst (jack_update e (Some data) settings) = Some data' ->
    reachable_in_range data'.

(** Whether [jack_update] finds a difference: the three tests of the source,
    on the server-start flag, the channel count and the device name. *)
Definition settings_differ (e : env) (data : jack_data) (settings : obs_data) : bool :=
  negb (Bool.eqb (obs_data_get_bool settings "startjack") (start_jack_server data))
  || negb (to_int (obs_data_get_int settings "channels") =? channels data)
  || match device data with
     | Some dev => negb (String.eqb dev (source_name e (source data)))
     | None => true
     end.

(** The session [jack_update] hands to [jack_init] when it reconnects. *)
Definition session_before_init (e : env) (data : jack_data) (settings : obs_data)
    : jack_data :=
  set_channels (to_int (obs_data_get_int settings "channels"))
    (set_jack_client None
       (set_device (Some (source_name e (source data)))
          (set_start_jack_server (obs_data_get_bool settings "startjack") data))).

(** One cycle, as a property of a log: the wrapper is called twice,
    [deactivate_jack] once and then [jack_init] once. *)
Definition one_reinit_cycle (log : list event) : Prop :=
  exists status, jack_calls log = [Call_deactivate_jack; Call_jack_init status].

(** ** Sample worlds and inputs *)

Module Sample.

(** A world whose audio server accepts every connection. *)
Definition env_connected : env :=
  mk_env (fun _ => "mic") (fun s => s) (fun _ => mk_init_result 0 (Some 1%positive)).

(** A world whose audio server cannot be reached: no client, status 1. *)
Definition env_unreachable : env :=
  mk_env (fun _ => "mic") (fun s => s) (fun _ => mk_init_result 1 None).

(** A world whose audio server opens a client and then fails to activate. *)
Definition env_partial : env :=
  mk_env (fun _ => "mic") (fun s => s) (fun _ => mk_init_result 1 (Some 1%positive)).

Definition settings_of (n : Z) (start : bool) : obs_data :=
  obs_data_set_bool (obs_data_set_int empty_data "channels" n) "startjack" start.

(** A connected stereo session for the source at address 7. *)
Definition stereo : jack_data :=
  mk_jack_data 7%nat (Some "mic") 2 false (Some 1%positive).

(** A session with nine channels. *)
Definition nine : jack_data :=
  mk_jack_data 7%nat (Some "mic") 9 false (Some 1%positive).

(** The panel [jack_input_properties] builds. *)
Definition panel : obs_properties :=
  match jack_input_properties env_connected (Some stereo) with
  | Some (props, _) => props
  | None => []
  end.

End Sample.

(** The calls [jack_update] makes to replace the stored device name. *)
Definition device_calls (e : env) (data : jack_data) : list event :=
  let new_device := source_name e (source data) in
  match device data with
  | Some dev =>
      if String.eqb dev new_device then []
      else [Call_bfree_device; Call_bstrdup new_device]
  | None => [Call_bstrdup new_device]
  end.

(** The three reads every call of [jack_update] on a session starts with. *)
Definition update_reads : list event :=
  [Call_obs_data_get_bool "startjack"; Call_obs_data_get_int "channels";
   Call_obs_source_get_name].

(** ** The rest of the plugin *)

(** [jack_input_getname]: the host's translation of the plugin's name. *)
Definition jack_input_getname (e : env) : string := module_text e "JACKInput".

Module Plugin.

Inductive obs_source_type :=
| OBS_SOURCE_TYPE_INPUT
| OBS_SOURCE_TYPE_FILTER
| OBS_SOURCE_TYPE_TRANSITION.

Inductive output_flag :=
| OBS_SOURCE_VIDEO
| OBS_SOURCE_AUDIO.

(** The table of hooks a plugin hands to the host; a [void *] handle is a
    session or NULL. *)
Record obs_source_info := mk_obs_source_info {
  id : string;
  type : obs_source_type;
  output_flags : list output_flag;
  get_name : env -> string;
  create : env -> obs_data -> obs_source_t -> option jack_data * list event;
  destroy : option jack_data -> list event;
  update : env -> option jack_data -> obs_data -> option jack_data * list event;
  get_defaults : obs_data -> obs_data;
  get_properties : env -> option jack_data -> option (obs_properties * list event)
}.

(** [jack_output_capture]: the table this file exports. *)
Definition jack_output_capture : obs_source_info :=
  mk_obs_source_info "jack_output_capture" OBS_SOURCE_TYPE_INPUT [OBS_SOURCE_AUDIO]
    jack_input_getname jack_create jack_destroy jack_update jack_input_defaults
    jack_input_properties.

End Plugin.

(** ** The life of a source, as the host drives it *)

(** The host creates a session for a source through the table of hooks and
    then updates it any number of times, each time in the world of that
    moment.  The log is that of all the calls so far. *)
Inductive lifecycle (src : obs_source_t) : jack_data -> list event -> Prop :=
| lifecycle_create e settings data log :
    Plugin.create Plugin.jack_output_capture e settings src = (Some data, log) ->
    lifecycle src data log
| lifecycle_update e settings data data' log log' :
    lifecycle src data log ->
    Plugin.update Plugin.jack_output_capture e (Some data) settings
    = (Some data', log') ->
    lifecycle src data' (log ++ log').

(** ** Reading a log *)

Definition is_bzalloc (e : event) : bool :=
  match e with Call_bzalloc => true | _ => false end.

Definition is_bfree_data (e : event) : bool :=
  match e with Call_bfree_data => true | _ => false end.

Definition is_bstrdup (e : event) : bool :=
  match e with Call_bstrdup _ => true | _ => false end.

Definition is_bfree_device (e : event) : bool :=
  match e with Call_bfree_device => true | _ => false end.

Definition is_mutex_init (e : event) : bool :=
  match e with Call_pthread_mutex_init => true | _ => false end.

Definition is_mutex_destroy (e : event) : bool :=
  match e with Call_pthread_mutex_destroy => true | _ => false end.

(** Every [jack_init] of the log comes directly after a [deactivate_jack];
    the flag tells whether the call before the log was one. *)
Fixpoint inits_guarded (after_deactivate : bool) (log : list event) : bool :=
  match log with
  | [] => true
  | Call_jack_init _ :: rest => after_deactivate && inits_guarded false rest
  | Call_deactivate_jack :: rest => inits_guarded true rest
  | _ :: rest => inits_guarded false rest
  end.

(** ** The callback, entry by entry *)

Fixpoint index_of (name : string) (names : list string) (i : Z) : option Z :=
  match names with
  | [] => None
  | n :: names' => if String.eqb name n then Some i else index_of name names' (i + 1)
  end.

(** The index of a name in [channel_ports_property_names], if it is there. *)
Definition port_index (name : string) : option Z :=
  index_of name channel_ports_property_names 0.

(** What a run for [c] channels makes of one entry: a port list is shown
    when its index is below [c], any other entry is left alone. *)
Definition show_channels (c : Z) (p : obs_property) : obs_property :=
  match port_index (prop_name p) with
  | Some j => with_visible (j <? c) p
  | None => p
  end.

(** The refreshes of one run, in the order of the array. *)
Definition refresh_calls (props : obs_properties) : list event :=
  List.map (fun name => Call_obs_property_modified (obs_properties_get props name))
    channel_ports_property_names.

(** What a loop over the indices [i .. i+n-1] makes of one entry. *)
Definition show_range (visible : bool) (i n : Z) (p : obs_property) : obs_property :=
  match port_index (prop_name p) with
  | Some j => if (i <=? j) && (j <? i + n) then with_visible visible p else p
  | None => p
  end.

(** The refresh of one entry, as the log shows it. *)
Definition refresh_of (props : obs_properties) (name : string) : event :=
  Call_obs_property_modified (obs_properties_get props name).

(** Unfold the monad down to the state it threads. *)
Ltac run_session :=
  unfold jack_update_data, read_bool, read_int, obs_source_get_name, bstrdup,
    deactivate_jack, jack_init, when, bind, ret, call, load, store;
  cbn.

(** * Properties *)

(** ** Machine integers *)

Lemma to_int_small (z : Z) : int_range z -> to_int z = z.
Proof.
  unfold int_range, to_int. intros Hz.
  rewrite Z.mod_small; lia.
Qed.

Lemma to_int_range (z : Z) : int_range (to_int z).
Proof.
  unfold int_range, to_int.
  pose proof (Z.mod_pos_bound (z + 2 ^ 31) (2 ^ 32) ltac:(lia)). lia.
Qed.

(** ** Defaults *)

(** C8: [jack_input_defaults] records the default 2 for [channels] and the
    default false for [startjack]; the defaults of all other keys and the
    values the user set are as before, and on an empty settings object these
    two defaults are all there is. *)
Theorem jack_input_defaults_spec (settings : obs_data) :
  default_values (jack_input_defaults settings) !! "channels" = Some (VInt 2)
  /\ default_values (jack_input_defaults settings) !! "startjack" = Some (VBool false)
  /\ delete "channels" (delete "startjack" (default_values (jack_input_defaults settings)))
     = delete "channels" (delete "startjack" (default_values settings))
  /\ user_values (jack_input_defaults settings) = user_values settings
  /\ jack_input_defaults empty_data
     = mk_obs_data ∅ (<["startjack" := VBool false]> {["channels" := VInt 2]}).
Proof.
  unfold jack_input_defaults, obs_data_set_default_bool, obs_data_set_default_int.
  cbn [default_values user_values].
  repeat split.
  - rewrite lookup_insert_ne by discriminate. apply lookup_insert_eq.
  - apply lookup_insert_eq.
  - apply map_eq. intros k.
    destruct (decide (k = "channels")) as [->|Hc].
    { by rewrite !lookup_delete_eq. }
    rewrite !(lookup_delete_ne _ "channels") by congruence.
    destruct (decide (k = "startjack")) as [->|Hs].
    { by rewrite !lookup_delete_eq. }
    rewrite !(lookup_delete_ne _ "startjack") by congruence.
    by rewrite !lookup_insert_ne by congruence.
Qed.

(** The getters see the defaults as long as the user set nothing. *)
Lemma jack_input_defaults_read :
  obs_data_get_int (jack_input_defaults empty_data) "channels" = 2
  /\ obs_data_get_bool (jack_input_defaults empty_data) "startjack" = false.
Proof. split; reflexivity. Qed.

(** ** Null handles *)

(** C5: [jack_destroy] on a NULL handle makes no call at all: no
    deactivation, no free, no destruction of the mutex. *)
Theorem jack_destroy_null :
  jack_destroy None = []
  /\ count_calls is_deactivate (jack_destroy None) = 0%nat
  /\ count_calls is_free (jack_destroy None) = 0%nat
  /\ ~ In Call_pthread_mutex_destroy (jack_destroy None).
Proof. repeat split; try reflexivity. intros []. Qed.

(** On a session the same hook deactivates, frees the name it owns, destroys
    the mutex and frees the session, in this order. *)
Lemma jack_destroy_session (data : jack_data) :
  jack_destroy (Some data)
  = Call_deactivate_jack
    :: match device data with Some _ => [Call_bfree_device] | None => [] end
    ++ [Call_pthread_mutex_destroy; Call_bfree_data].
Proof. destruct data as [src dev ch st cl]. reflexivity. Qed.

(** C9: [jack_update] on a NULL handle returns at once: there is no session
    afterwards, and the log is empty, so no setting was read and neither
    collaborator was called. *)
Theorem jack_update_null (e : env) (settings : obs_data) :
  jack_update e None settings = (None, [])
  /\ count_calls is_settings_read (snd (jack_update e None settings)) = 0%nat.
Proof. split; reflexivity. Qed.

(** ** [jack_update] on a session *)

Section Update.

Variable e : env.
Variable settings : obs_data.

(** Nothing differs: three reads, no write. *)
Lemma jack_update_data_same (data : jack_data) :
  settings_differ e data settings = false ->
  jack_update_data e settings data [] = (tt, data, update_reads).
Proof.
  destruct data as [src dev ch st cl].
  unfold settings_differ; cbn.
  intros H.
  apply orb_false_elim in H as [H Hdev].
  apply orb_false_elim in H as [Hst Hch].
  destruct dev as [dev|]; [|discriminate].
  run_session.
  repeat (first [rewrite Hst | rewrite Hdev | rewrite Hch]; cbn).
  reflexivity.
Qed.

(** Something differs: the stored fields are brought up to date, the session
    is deactivated, [jack_init] runs on it, and a status other than 0 is
    answered with a second deactivation. *)
Lemma jack_update_data_differ (data : jack_data) :
  settings_differ e data settings = true ->
  let before := session_before_init e data settings in
  let r := jack_server e before in
  jack_update_data e settings data []
  = (tt,
     (if init_status r =? 0 then set_jack_client (init_client r) before
      else set_jack_client None before),
     update_reads ++ device_calls e data
     ++ [Call_deactivate_jack; Call_jack_init (init_status r)]
     ++ (if init_status r =? 0 then [] else [Call_deactivate_jack])).
Proof.
  destruct data as [src dev ch st cl].
  unfold settings_differ, session_before_init, device_calls; cbn.
  set (new_start := obs_data_get_bool settings "startjack").
  set (new_count := to_int (obs_data_get_int settings "channels")).
  intros H. run_session. fold new_start new_count.
  destruct (Bool.eqb new_start st) eqn:Hst; cbn in *.
  - apply Bool.eqb_prop in Hst. subst st.
    destruct dev as [dev|]; cbn in *.
    + destruct (String.eqb dev (source_name e src)) eqn:Hdev; cbn in *.
      * apply String.eqb_eq in Hdev. subst dev.
        rewrite orb_false_r in H. rewrite H. cbn.
        destruct (init_status _ =? 0); reflexivity.
      * destruct (init_status _ =? 0); reflexivity.
    + destruct (init_status _ =? 0); reflexivity.
  - destruct dev as [dev|]; cbn in *.
    + destruct (String.eqb dev (source_name e src)) eqn:Hdev; cbn in *.
      * apply String.eqb_eq in Hdev. subst dev.
        destruct (negb (new_count =? ch)); cbn;
        destruct (init_status _ =? 0); reflexivity.
      * destruct (init_status _ =? 0); reflexivity.
    + destruct (init_status _ =? 0); reflexivity.
Qed.
End Update.

(** The two cases, for the hook itself. *)
Lemma jack_update_same (e : env) (settings : obs_data) (data : jack_data) :
  settings_differ e data settings = false ->
  jack_update e (Some data) settings = (Some data, update_reads).
Proof.
  intros H. unfold jack_update.
  rewrite (jack_update_data_same e settings data H). reflexivity.
Qed.

Lemma jack_update_differ (e : env) (settings : obs_data) (data : jack_data) :
  settings_differ e data settings = true ->
  let before := session_before_init e data settings in
  let r := jack_server e before in
  jack_update e (Some data) settings
  = (Some (if init_status r =? 0 then set_jack_client (init_client r) before
           else set_jack_client None before),
     update_reads ++ device_calls e data
     ++ [Call_deactivate_jack; Call_jack_init (init_status r)]
     ++ (if init_status r =? 0 then [] else [Call_deactivate_jack])).
Proof.
  intros H. unfold jack_update.
  rewrite (jack_update_data_differ e settings data H). reflexivity.
Qed.

(** [device_calls] never reaches the wrapper. *)
Lemma jack_calls_device_calls (e : env) (data : jack_data) :
  jack_calls (device_calls e data) = [].
Proof.
  unfold device_calls.
  destruct (device data) as [dev|]; [destruct (String.eqb _ _)|]; reflexivity.
Qed.

Lemma jack_calls_app (l1 l2 : list event) :
  jack_calls (l1 ++ l2) = jack_calls l1 ++ jack_calls l2.
Proof. apply List.filter_app. Qed.

(** The calls to the wrapper that one [jack_update] makes. *)
Lemma jack_update_jack_calls (e : env) (settings : obs_data) (data : jack_data) :
  jack_calls (snd (jack_update e (Some data) settings))
  = if settings_differ e data settings then
      let status := init_status (jack_server e (session_before_init e data settings)) in
      Call_deactivate_jack :: Call_jack_init status
      :: (if status =? 0 then [] else [Call_deactivate_jack])
    else [].
Proof.
  destruct (settings_differ e data settings) eqn:H.
  - rewrite (jack_update_differ e settings data H). cbn [snd].
    rewrite !jack_calls_app, jack_calls_device_calls.
    destruct (init_status _ =? 0); reflexivity.
  - rewrite (jack_update_same e settings data H). reflexivity.
Qed.

(** C10: when the flag and the channel count read from the settings are the
    session's and the source's name is the stored device name, [jack_update]
    returns the session as it was; its log is the three reads, with no call to
    [deactivate_jack] or [jack_init]. *)
Theorem jack_update_unchanged (e : env) (settings : obs_data) (data : jack_data) :
  obs_data_get_bool settings "startjack" = start_jack_server data ->
  to_int (obs_data_get_int settings "channels") = channels data ->
  device data = Some (source_name e (source data)) ->
  jack_update e (Some data) settings = (Some data, update_reads)
  /\ jack_calls (snd (jack_update e (Some data) settings)) = [].
Proof.
  intros Hst Hch Hdev.
  assert (H : settings_differ e data settings = false).
  { unfold settings_differ. rewrite Hst, Hch, Hdev.
    rewrite Bool.eqb_reflx, Z.eqb_refl, String.eqb_refl. reflexivity. }
  rewrite (jack_update_same e settings data H). split; reflexivity.
Qed.

Lemma jack_update_unchanged_witness :
  jack_update Sample.env_connected (Some Sample.stereo) (Sample.settings_of 2 false)
  = (Some Sample.stereo, update_reads)
  /\ jack_calls (snd (jack_update Sample.env_connected (Some Sample.stereo)
                        (Sample.settings_of 2 false))) = [].
Proof.
  apply (jack_update_unchanged Sample.env_connected (Sample.settings_of 2 false)
           Sample.stereo); reflexivity.
Defined.

(** C7, as the code has it: when only the server-start flag differs,
    [jack_update] calls [deactivate_jack] once and then [jack_init] once; a
    status other than 0 is followed by one more [deactivate_jack], a status
    of 0 by nothing. *)
Theorem jack_update_startjack_only (e : env) (settings : obs_data) (data : jack_data) :
  obs_data_get_bool settings "startjack" <> start_jack_server data ->
  to_int (obs_data_get_int settings "channels") = channels data ->
  device data = Some (source_name e (source data)) ->
  let log := snd (jack_update e (Some data) settings) in
  let status := init_status (jack_server e (session_before_init e data settings)) in
  jack_calls log
  = Call_deactivate_jack :: Call_jack_init status
    :: (if status =? 0 then [] else [Call_deactivate_jack])
  /\ count_calls is_init log = 1%nat
  /\ (status = 0 -> one_reinit_cycle log).
Proof.
  intros Hst Hch Hdev log status.
  assert (H : settings_differ e data settings = true).
  { unfold settings_differ.
    destruct (Bool.eqb _ _) eqn:E; [|reflexivity].
    apply Bool.eqb_prop in E. contradiction. }
  assert (Hcalls : jack_calls log
    = Call_deactivate_jack :: Call_jack_init status
      :: (if status =? 0 then [] else [Call_deactivate_jack])).
  { unfold log. rewrite jack_update_jack_calls, H. reflexivity. }
  split; [exact Hcalls|]. split.
  - unfold log. rewrite (jack_update_differ e settings data H). cbn [snd].
    unfold count_calls, device_calls. rewrite Hdev, String.eqb_refl.
    cbn. destruct (init_status _ =? 0); reflexivity.
  - intros H0. exists status. rewrite Hcalls, H0. reflexivity.
Qed.

Lemma jack_update_startjack_only_witness :
  jack_calls (snd (jack_update Sample.env_connected (Some Sample.stereo)
                     (Sample.settings_of 2 true)))
  = [Call_deactivate_jack; Call_jack_init 0].
Proof.
  apply (jack_update_startjack_only Sample.env_connected (Sample.settings_of 2 true)
           Sample.stereo); [discriminate | reflexivity | reflexivity].
Defined.

(** C7, as the spec words it, fails when [jack_init] fails: with only the flag
    changed, the wrapper sees [deactivate_jack], [jack_init] and
    [deactivate_jack] again, which is two deactivations and not one cycle. *)
Lemma jack_update_startjack_two_deactivations :
  let e := Sample.env_unreachable in
  let data := Sample.stereo in
  let settings := Sample.settings_of 2 true in
  (obs_data_get_bool settings "startjack" <> start_jack_server data
   /\ to_int (obs_data_get_int settings "channels") = channels data
   /\ device data = Some (source_name e (source data)))
  /\ count_calls is_deactivate (snd (jack_update e (Some data) settings)) = 2%nat
  /\ ~ one_reinit_cycle (snd (jack_update e (Some data) settings)).
Proof.
  cbv zeta. split; [|split].
  - split; [discriminate|split; reflexivity].
  - reflexivity.
  - intros [status H]. vm_compute in H. discriminate.
Qed.

(** The log of one [jack_update] holds at most the [jack_init] it ran. *)
Lemma jack_update_init_in_log (e : env) (settings : obs_data) (data : jack_data)
    (status : Z) :
  In (Call_jack_init status) (snd (jack_update e (Some data) settings)) ->
  settings_differ e data settings = true
  /\ status = init_status (jack_server e (session_before_init e data settings)).
Proof.
  destruct (settings_differ e data settings) eqn:H.
  - rewrite (jack_update_differ e settings data H). cbn [snd].
    intros Hin. split; [reflexivity|].
    apply in_app_or in Hin as [Hin|Hin].
    { cbn in Hin. intuition discriminate. }
    apply in_app_or in Hin as [Hin|Hin].
    { unfold device_calls in Hin.
      destruct (device data) as [dev|]; [destruct (String.eqb _ _)|];
        cbn in Hin; intuition discriminate. }
    destruct (init_status _ =? 0); cbn in Hin;
      intuition (try discriminate; congruence).
  - rewrite (jack_update_same e settings data H). cbn.
    intuition discriminate.
Qed.

(** C2: whenever the [jack_init] that [jack_update] runs returns a status
    other than 0, the last call of [jack_update] is [deactivate_jack], right
    after that [jack_init], and the session is left without client handle.
    [jack_init] runs exactly when the flag, the channel count or the device
    name differs (see [jack_update_init_in_log] and [jack_update_differ]). *)
Theorem jack_update_failed_init_deactivated (e : env) (settings : obs_data)
    (data : jack_data) (status : Z) :
  In (Call_jack_init status) (snd (jack_update e (Some data) settings)) ->
  status <> 0 ->
  exists data' pre,
    jack_update e (Some data) settings
    = (Some data', pre ++ [Call_jack_init status; Call_deactivate_jack])
    /\ jack_client data' = None.
Proof.
  intros Hin Hstatus.
  destruct (jack_update_init_in_log e settings data status Hin) as [H ->].
  rewrite (jack_update_differ e settings data H).
  apply Z.eqb_neq in Hstatus. rewrite Hstatus.
  exists (set_jack_client None (session_before_init e data settings)),
    (update_reads ++ device_calls e data ++ [Call_deactivate_jack]).
  split; [|reflexivity].
  f_equal. rewrite <- !app_assoc. reflexivity.
Qed.

Lemma jack_update_failed_init_deactivated_witness :
  exists data' pre,
    jack_update Sample.env_partial (Some Sample.stereo) (Sample.settings_of 4 false)
    = (Some data', pre ++ [Call_jack_init 1; Call_deactivate_jack])
    /\ jack_client data' = None.
Proof.
  apply (jack_update_failed_init_deactivated Sample.env_partial
           (Sample.settings_of 4 false) Sample.stereo 1).
  - vm_compute. tauto.
  - discriminate.
Defined.

(** ** [jack_create] *)

(** The session [jack_create] passes to [jack_update]. *)
Lemma jack_create_unfold (e : env) (settings : obs_data) (src : obs_source_t) :
  jack_create e settings src
  = match jack_update e (Some (set_channels (-1) (set_source src bzalloc_jack_data)))
            settings with
    | (Some data, log) =>
        match jack_client data with
        | None => (None, [Call_bzalloc; Call_pthread_mutex_init] ++ log
                         ++ jack_destroy (Some data))
        | Some _ => (Some data, [Call_bzalloc; Call_pthread_mutex_init] ++ log)
        end
    | (None, log) => (None, [Call_bzalloc; Call_pthread_mutex_init] ++ log)
    end.
Proof. reflexivity. Qed.

(** A fresh session has no device name, so its first update always differs. *)
Lemma fresh_session_differs (e : env) (settings : obs_data) (src : obs_source_t) :
  settings_differ e (set_channels (-1) (set_source src bzalloc_jack_data)) settings
  = true.
Proof. unfold settings_differ. cbn. apply orb_true_r. Qed.

(** C4: when the session that [jack_update] leaves inside [jack_create] has
    no client handle, [jack_create] returns NULL, and its log ends with the
    calls of [jack_destroy] on that session: deactivation, the free of the
    device name, the destruction of the mutex, the free of the session. *)
Theorem jack_create_no_client (e : env) (settings : obs_data) (src : obs_source_t)
    (data : jack_data) (log : list event) :
  jack_update e (Some (set_channels (-1) (set_source src bzalloc_jack_data))) settings
  = (Some data, log) ->
  jack_client data = None ->
  jack_create e settings src
  = (None,
     [Call_bzalloc; Call_pthread_mutex_init] ++ log
     ++ [Call_deactivate_jack; Call_bfree_device; Call_pthread_mutex_destroy;
         Call_bfree_data])
  /\ jack_destroy (Some data)
     = [Call_deactivate_jack; Call_bfree_device; Call_pthread_mutex_destroy;
        Call_bfree_data].
Proof.
  intros Hupd Hclient.
  assert (Hdev : device data = Some (source_name e src)).
  { rewrite (jack_update_differ e settings _ (fresh_session_differs e settings src))
      in Hupd.
    injection Hupd as Hdata _. subst data.
    destruct (init_status _ =? 0); reflexivity. }
  assert (Hdestroy : jack_destroy (Some data)
    = [Call_deactivate_jack; Call_bfree_device; Call_pthread_mutex_destroy;
       Call_bfree_data]).
  { rewrite jack_destroy_session, Hdev. reflexivity. }
  split; [|exact Hdestroy].
  rewrite jack_create_unfold, Hupd, Hclient, Hdestroy. reflexivity.
Qed.

Lemma jack_create_no_client_witness :
  fst (jack_create Sample.env_unreachable (Sample.settings_of 2 false) 7%nat) = None.
Proof.
  refine (f_equal fst (proj1 (jack_create_no_client Sample.env_unreachable
           (Sample.settings_of 2 false) 7%nat _ _ _ _))).
  - vm_compute. reflexivity.
  - reflexivity.
Defined.

(** An audio server that yields no client makes [jack_create] return NULL,
    whatever status it reports. *)
Lemma jack_create_unreachable (e : env) (settings : obs_data) (src : obs_source_t) :
  (forall d, init_client (jack_server e d) = None) ->
  fst (jack_create e settings src) = None.
Proof.
  intros Hsrv. rewrite jack_create_unfold.
  rewrite (jack_update_differ e settings _ (fresh_session_differs e settings src)).
  cbv zeta. rewrite Hsrv.
  destruct (init_status _ =? 0); reflexivity.
Qed.

(** ** The channel count of a session *)

(** After [jack_update] the channel count is the [int] read from the
    settings: it is assigned when something differs, and was equal already
    when nothing does. *)
Lemma jack_update_channels (e : env) (settings : obs_data) (data data' : jack_data) :
  fst (jack_update e (Some data) settings) = Some data' ->
  channels data' = to_int (obs_data_get_int settings "channels").
Proof.
  destruct (settings_differ e data settings) eqn:H.
  - rewrite (jack_update_differ e settings data H). cbn [fst].
    intros [= <-]. destruct (init_status _ =? 0); reflexivity.
  - rewrite (jack_update_same e settings data H). cbn [fst].
    intros [= <-].
    unfold settings_differ in H.
    apply orb_false_elim in H as [H _].
    apply orb_false_elim in H as [_ H].
    apply negb_false_iff, Z.eqb_eq in H. congruence.
Qed.

Lemma jack_create_channels (e : env) (settings : obs_data) (src : obs_source_t)
    (data : jack_data) :
  fst (jack_create e settings src) = Some data ->
  channels data = to_int (obs_data_get_int settings "channels").
Proof.
  rewrite jack_create_unfold.
  destruct (jack_update e _ settings) as [[data1|] log] eqn:Hupd;
    [|discriminate].
  destruct (jack_client data1); [|discriminate].
  cbn [fst]. intros [= <-].
  apply (jack_update_channels e settings
           (set_channels (-1) (set_source src bzalloc_jack_data))).
  rewrite Hupd. reflexivity.
Qed.

(** C3, as the spec words it, fails: nothing in [jack_create] or
    [jack_update] clamps the value read from the settings.  With [channels]
    set to 9 and an audio server that accepts the connection, [jack_create]
    returns a session of nine channels. *)
Lemma reachable_nine_channels :
  reachable Sample.nine /\ ~ (1 <= channels Sample.nine <= 8).
Proof.
  split.
  - apply (reachable_create Sample.env_connected (Sample.settings_of 9 false) 7%nat).
    reflexivity.
  - cbn. lia.
Qed.

(** C3, as the code has it: as long as every settings object handed to
    [jack_create] and [jack_update] carries a channel count between 1 and 8,
    so does every session they return. *)
Theorem reachable_in_range_channels (data : jack_data) :
  reachable_in_range data -> 1 <= channels data <= 8.
Proof.
  induction 1 as [e settings src data Hs Hc | e settings data data' Hs _ _ Hu].
  - rewrite (jack_create_channels e settings src data Hc).
    unfold channels_in_range in Hs.
    rewrite to_int_small; [lia | unfold int_range; lia].
  - rewrite (jack_update_channels e settings data data' Hu).
    unfold channels_in_range in Hs.
    rewrite to_int_small; [lia | unfold int_range; lia].
Qed.

Lemma reachable_in_range_channels_witness :
  1 <= channels (set_channels 5 Sample.stereo) <= 8.
Proof.
  apply (reachable_in_range_channels (set_channels 5 Sample.stereo)).
  apply (in_range_update Sample.env_connected (Sample.settings_of 5 false)
           Sample.stereo).
  - unfold channels_in_range. vm_compute. split; discriminate.
  - apply (in_range_create Sample.env_connected (Sample.settings_of 2 false) 7%nat).
    + unfold channels_in_range. vm_compute. split; discriminate.
    + reflexivity.
  - reflexivity.
Defined.

(** ** The property panel *)

Lemma channel_ports_property_names_NoDup : NoDup channel_ports_property_names.
Proof. compute_done. Qed.

Lemma port_name_Some (i : Z) (name : string) :
  port_name i = Some name ->
  0 <= i < 8 /\ channel_ports_property_names !! Z.to_nat i = Some name.
Proof.
  unfold port_name. destruct (i <? 0) eqn:Hneg; [discriminate|].
  apply Z.ltb_ge in Hneg. intros H. split; [|exact H].
  apply lookup_lt_Some in H. cbn in H. lia.
Qed.

Lemma port_name_defined (i : Z) :
  0 <= i < 8 -> exists name, port_name i = Some name.
Proof.
  intros Hi. unfold port_name.
  destruct (i <? 0) eqn:Hneg; [apply Z.ltb_lt in Hneg; lia|].
  apply lookup_lt_is_Some_2. cbn. lia.
Qed.

(** The eight names are pairwise distinct. *)
Lemma port_name_inj (i j : Z) (name : string) :
  port_name i = Some name -> port_name j = Some name -> i = j.
Proof.
  intros Hi Hj.
  apply port_name_Some in Hi as [Hi Hli], Hj as [Hj Hlj].
  pose proof (NoDup_lookup _ _ _ _ channel_ports_property_names_NoDup Hli Hlj).
  lia.
Qed.

Lemma visible_of_update (visible : bool) (name n : string) (props : obs_properties) :
  visible_of (update_property (with_visible visible) name props) n
  = if String.eqb n name then (fun _ => visible) <$> visible_of props n
    else visible_of props n.
Proof.
  unfold visible_of, lookup_property, update_property.
  induction props as [|p props IH]; cbn.
  - destruct (String.eqb n name); reflexivity.
  - destruct (String.eqb (prop_name p) name) eqn:Hp; cbn.
    + apply String.eqb_eq in Hp.
      destruct (String.eqb (prop_name p) n) eqn:Hn; cbn.
      * apply String.eqb_eq in Hn.
        replace (String.eqb n name) with true; [reflexivity|].
        symmetry. apply String.eqb_eq. congruence.
      * exact IH.
    + destruct (String.eqb (prop_name p) n) eqn:Hn; cbn.
      * apply String.eqb_eq in Hn. subst n. rewrite Hp. reflexivity.
      * exact IH.
Qed.

Lemma has_prop_visible_of (props : obs_properties) (name : string) :
  has_prop props name = true -> exists b, visible_of props name = Some b.
Proof.
  unfold has_prop, visible_of, lookup_property.
  induction props as [|p props IH]; cbn; [discriminate|].
  destruct (String.eqb (prop_name p) name); cbn; eauto.
Qed.

(** One run of the loop body on a name of the array. *)
Lemma set_port_visible_step (visible : bool) (i : Z) (name : string)
    (st : obs_properties * list event) :
  port_name i = Some name ->
  exists st',
    set_port_visible visible i st = Some st'
    /\ forall n, visible_of (fst st') n
         = if String.eqb n name then (fun _ => visible) <$> visible_of (fst st) n
           else visible_of (fst st) n.
Proof.
  intros Hname. unfold set_port_visible. rewrite Hname. cbn.
  eexists. split; [reflexivity|]. cbn [fst]. intros n.
  unfold obs_properties_get, obs_property_set_visible.
  destruct (has_prop (fst st) name) eqn:Hhas.
  - apply visible_of_update.
  - destruct (String.eqb n name) eqn:Hn; [|reflexivity].
    apply String.eqb_eq in Hn. subst n.
    assert (Hnone : visible_of (fst st) name = None).
    { clear -Hhas. unfold has_prop, visible_of, lookup_property in *.
      induction (fst st) as [|p props IH]; cbn in *; [reflexivity|].
      destruct (String.eqb (prop_name p) name); [discriminate|]. auto. }
    rewrite Hnone. reflexivity.
Qed.

(** A loop over the indices [i .. i+n-1] of the array, by induction on the
    number of iterations: it ends, and it has set exactly these entries. *)
Lemma for_loop_set_port_visible (visible : bool) (n : nat) :
  forall (i : Z) (st : obs_properties * list event),
  0 <= i -> i + Z.of_nat n <= 8 ->
  exists st',
    for_loop n i (set_port_visible visible) st = Some st'
    /\ forall j name, port_name j = Some name ->
         visible_of (fst st') name
         = if (i <=? j) && (j <? i + Z.of_nat n)
           then (fun _ => visible) <$> visible_of (fst st) name
           else visible_of (fst st) name.
Proof.
  induction n as [|n IH]; intros i st Hi Hn.
  - exists st. split; [reflexivity|]. intros j name _.
    replace ((i <=? j) && (j <? i + Z.of_nat 0)) with false; [reflexivity|].
    symmetry. apply andb_false_iff.
    destruct (Z.leb_spec i j); [right; apply Z.ltb_ge; lia | left; reflexivity].
  - destruct (port_name_defined i ltac:(lia)) as [name_i Hname_i].
    destruct (set_port_visible_step visible i name_i st Hname_i) as (st1 & Hst1 & Hvis1).
    destruct (IH (i + 1) st1 ltac:(lia) ltac:(lia)) as (st' & Hst' & Hvis').
    exists st'. split.
    { cbn [for_loop]. rewrite Hst1. exact Hst'. }
    intros j name Hname. rewrite (Hvis' j name Hname), Hvis1.
    destruct (String.eqb name name_i) eqn:Heq.
    + apply String.eqb_eq in Heq. subst name_i.
      assert (j = i) by (eapply port_name_inj; eassumption). subst j.
      replace ((i + 1 <=? i) && (i <? i + 1 + Z.of_nat n)) with false
        by (symmetry; apply andb_false_iff; left; apply Z.leb_gt; lia).
      replace ((i <=? i) && (i <? i + Z.of_nat (S n))) with true
        by (symmetry; apply andb_true_iff; split;
            [apply Z.leb_le | apply Z.ltb_lt]; lia).
      reflexivity.
    + assert (j <> i).
      { intros ->. rewrite Hname in Hname_i. injection Hname_i as ->.
        rewrite String.eqb_refl in Heq. discriminate. }
      replace ((i + 1 <=? j) && (j <? i + 1 + Z.of_nat n))
        with ((i <=? j) && (j <? i + Z.of_nat (S n))); [reflexivity|].
      destruct (Z.leb_spec i j), (Z.leb_spec (i + 1) j),
        (Z.ltb_spec j (i + Z.of_nat (S n))), (Z.ltb_spec j (i + 1 + Z.of_nat n));
        cbn; try reflexivity; lia.
Qed.

(** The callback for a channel count between 0 and 8: it returns true, and an
    entry of the array's [j]th name that is in the panel is then shown exactly
    when [j] is below the channel count. *)
Lemma channel_count_changed_visible (props : obs_properties) (p : property_ptr)
    (settings : obs_data) (c : Z) :
  0 <= c <= 8 ->
  to_int (obs_data_get_int settings "channels") = c ->
  exists props' log,
    jack_input_channel_count_changed props p settings = Some (true, props', log)
    /\ forall j name, port_name j = Some name ->
         visible_of props' name = (fun _ => j <? c) <$> visible_of props name.
Proof.
  intros Hc Hread. unfold jack_input_channel_count_changed, for_range.
  rewrite Hread. unfold JACK_INPUT_MAX_PORTS.
  destruct (for_loop_set_port_visible true (Z.to_nat (c - 0)) 0
              (props, [Call_obs_data_get_int "channels"]) ltac:(lia) ltac:(lia))
    as (st1 & Hst1 & Hvis1).
  destruct (for_loop_set_port_visible false (Z.to_nat (8 - c)) c st1
              ltac:(lia) ltac:(lia)) as (st2 & Hst2 & Hvis2).
  rewrite Hst1. cbn. rewrite Hst2. cbn.
  exists (fst st2), (snd st2). split; [reflexivity|].
  intros j name Hname.
  rewrite (Hvis2 j name Hname), (Hvis1 j name Hname). cbn [fst].
  apply port_name_Some in Hname as [Hj _].
  replace (c + Z.of_nat (Z.to_nat (8 - c))) with 8 by lia.
  replace (0 + Z.of_nat (Z.to_nat (c - 0))) with c by lia.
  destruct (Z.leb_spec c j), (Z.leb_spec 0 j), (Z.ltb_spec j 8), (Z.ltb_spec j c);
    cbn; try lia; destruct (visible_of props name); reflexivity.
Qed.

(** With all eight entries in the panel, what the callback leaves is the
    list of the eight tests [j < c]. *)
Lemma port_visibility_after (props props' : obs_properties) (c : Z) :
  has_all_port_lists props = true ->
  (forall j name, port_name j = Some name ->
     visible_of props' name = (fun _ => j <? c) <$> visible_of props name) ->
  port_visibility props'
  = List.map (fun j => Some (j <? c)) [0; 1; 2; 3; 4; 5; 6; 7].
Proof.
  intros Hall Hvis.
  unfold has_all_port_lists, channel_ports_property_names in Hall.
  cbn [forallb] in Hall.
  repeat (apply andb_prop in Hall as [?Hhas Hall]).
  unfold port_visibility, channel_ports_property_names. cbn [List.map].
  repeat match goal with
         | H : has_prop props _ = true |- _ =>
             apply has_prop_visible_of in H as [? H]
         end.
  rewrite (Hvis 0 _ eq_refl), (Hvis 1 _ eq_refl), (Hvis 2 _ eq_refl),
    (Hvis 3 _ eq_refl), (Hvis 4 _ eq_refl), (Hvis 5 _ eq_refl),
    (Hvis 6 _ eq_refl), (Hvis 7 _ eq_refl).
  repeat match goal with H : visible_of props _ = Some _ |- _ => rewrite H; clear H end.
  reflexivity.
Qed.

(** The callback keeps every entry of the panel in place. *)
Lemma has_all_port_lists_after (props props' : obs_properties) (c : Z) :
  has_all_port_lists props = true ->
  (forall j name, port_name j = Some name ->
     visible_of props' name = (fun _ => j <? c) <$> visible_of props name) ->
  has_all_port_lists props' = true.
Proof.
  intros Hall Hvis.
  unfold has_all_port_lists in *. rewrite forallb_forall in *.
  intros name Hin.
  destruct (has_prop_visible_of props name (Hall name Hin)) as [b Hb].
  apply In_nth_error in Hin as [k Hk].
  assert (Hname : port_name (Z.of_nat k) = Some name).
  { unfold port_name. destruct (Z.of_nat k <? 0) eqn:E; [apply Z.ltb_lt in E; lia|].
    rewrite Nat2Z.id, <- Hk. clear. revert k.
    induction channel_ports_property_names; intros [|k]; cbn; auto. }
  specialize (Hvis _ _ Hname). rewrite Hb in Hvis. cbn in Hvis.
  clear -Hvis. unfold has_prop, visible_of, lookup_property in *.
  induction props' as [|q props' IH]; cbn in *; [discriminate|].
  destruct (String.eqb (prop_name q) name); cbn; auto.
Qed.

(** C1: for a channel count [c] between 1 and 8 and a panel that holds the
    eight port lists, the callback returns true and leaves the port lists at
    indices 0 to c-1 shown and those at indices c to 7 hidden. *)
Theorem channel_count_changed_visibility (props : obs_properties) (p : property_ptr)
    (settings : obs_data) (c : Z) :
  1 <= c <= 8 ->
  obs_data_get_int settings "channels" = c ->
  has_all_port_lists props = true ->
  exists props' log,
    jack_input_channel_count_changed props p settings = Some (true, props', log)
    /\ port_visibility props'
       = List.map (fun j => Some (j <? c)) [0; 1; 2; 3; 4; 5; 6; 7].
Proof.
  intros Hc Hread Hall.
  destruct (channel_count_changed_visible props p settings c ltac:(lia))
    as (props' & log & Hrun & Hvis).
  { rewrite Hread. apply to_int_small. unfold int_range. lia. }
  exists props', log. split; [exact Hrun|].
  exact (port_visibility_after props props' c Hall Hvis).
Qed.

Lemma channel_count_changed_visibility_witness :
  exists props' log,
    jack_input_channel_count_changed Sample.panel (Some "channels")
      (Sample.settings_of 3 false) = Some (true, props', log)
    /\ port_visibility props'
       = [Some true; Some true; Some true; Some false; Some false; Some false;
          Some false; Some false].
Proof.
  apply (channel_count_changed_visibility Sample.panel (Some "channels")
           (Sample.settings_of 3 false) 3); [lia | reflexivity | reflexivity].
Defined.

(** C6: on a panel that holds the eight port lists, the callback run with 2
    channels, then 5, then 2 leaves the same shown/hidden state per index as
    one run with 2 channels: indices 0 and 1 shown, 2 to 7 hidden. *)
Theorem channel_count_2_5_2 (props : obs_properties) (s2 s5 : obs_data) :
  obs_data_get_int s2 "channels" = 2 ->
  obs_data_get_int s5 "channels" = 5 ->
  has_all_port_lists props = true ->
  exists once thrice,
    channel_count_changed_panel s2 props = Some once
    /\ (p1 ← channel_count_changed_panel s2 props;
        p2 ← channel_count_changed_panel s5 p1;
        channel_count_changed_panel s2 p2) = Some thrice
    /\ port_visibility thrice = port_visibility once
    /\ port_visibility once
       = [Some true; Some true; Some false; Some false; Some false; Some false;
          Some false; Some false].
Proof.
  intros H2 H5 Hall.
  assert (E2 : to_int (obs_data_get_int s2 "channels") = 2) by (rewrite H2; reflexivity).
  assert (E5 : to_int (obs_data_get_int s5 "channels") = 5) by (rewrite H5; reflexivity).
  destruct (channel_count_changed_visible props None s2 2 ltac:(lia) E2)
    as (p1 & l1 & Hrun1 & Hvis1).
  pose proof (has_all_port_lists_after props p1 2 Hall Hvis1) as Hall1.
  destruct (channel_count_changed_visible p1 None s5 5 ltac:(lia) E5)
    as (p2 & l2 & Hrun2 & Hvis2).
  pose proof (has_all_port_lists_after p1 p2 5 Hall1 Hvis2) as Hall2.
  destruct (channel_count_changed_visible p2 None s2 2 ltac:(lia) E2)
    as (p3 & l3 & Hrun3 & Hvis3).
  assert (R1 : channel_count_changed_panel s2 props = Some p1)
    by (unfold channel_count_changed_panel; rewrite Hrun1; reflexivity).
  assert (R2 : channel_count_changed_panel s5 p1 = Some p2)
    by (unfold channel_count_changed_panel; rewrite Hrun2; reflexivity).
  assert (R3 : channel_count_changed_panel s2 p2 = Some p3)
    by (unfold channel_count_changed_panel; rewrite Hrun3; reflexivity).
  exists p1, p3.
  split; [exact R1|]. split.
  { rewrite R1. cbn [mbind option_bind]. rewrite R2. exact R3. }
  rewrite (port_visibility_after p2 p3 2 Hall2 Hvis3).
  rewrite (port_visibility_after props p1 2 Hall Hvis1).
  split; reflexivity.
Qed.

Lemma channel_count_2_5_2_witness :
  exists once thrice,
    channel_count_changed_panel (Sample.settings_of 2 false) Sample.panel = Some once
    /\ (p1 ← channel_count_changed_panel (Sample.settings_of 2 false) Sample.panel;
        p2 ← channel_count_changed_panel (Sample.settings_of 5 false) p1;
        channel_count_changed_panel (Sample.settings_of 2 false) p2) = Some thrice
    /\ port_visibility thrice = port_visibility once
    /\ port_visibility once
       = [Some true; Some true; Some false; Some false; Some false; Some false;
          Some false; Some false].
Proof.
  apply (channel_count_2_5_2 Sample.panel (Sample.settings_of 2 false)
           (Sample.settings_of 5 false)); reflexivity.
Defined.

(** The panel that [jack_input_properties] builds for a session holds the
    eight port lists, all of them shown. *)
Lemma jack_input_properties_port_lists (e : env) (data : jack_data) :
  exists props log,
    jack_input_properties e (Some data) = Some (props, log)
    /\ has_all_port_lists props = true
    /\ port_visibility props = List.map (fun _ => Some true) channel_ports_property_names.
Proof. eexists _, _. repeat split. Qed.

(** Outside 0..8 the callback reads past the array of names. *)
Lemma channel_count_changed_nine :
  jack_input_channel_count_changed Sample.panel None (Sample.settings_of 9 false)
  = None.
Proof. reflexivity. Qed.

(** * Further properties of the hooks *)

(** ** What [jack_update] leaves behind *)

(** The fields of the session after one update. *)
Lemma jack_update_fields (e : env) (settings : obs_data) (data : jack_data) :
  exists data' log,
    jack_update e (Some data) settings = (Some data', log)
    /\ start_jack_server data' = obs_data_get_bool settings "startjack"
    /\ channels data' = to_int (obs_data_get_int settings "channels")
    /\ device data' = Some (source_name e (source data))
    /\ source data' = source data.
Proof.
  destruct (settings_differ e data settings) eqn:H.
  - rewrite (jack_update_differ e settings data H). cbv zeta.
    eexists _, _. split; [reflexivity|].
    destruct (init_status _ =? 0); repeat split; reflexivity.
  - rewrite (jack_update_same e settings data H).
    exists data, update_reads. split; [reflexivity|].
    unfold settings_differ in H.
    apply orb_false_elim in H as [H Hdev].
    apply orb_false_elim in H as [Hst Hch].
    apply negb_false_iff in Hst, Hch.
    apply Bool.eqb_prop in Hst. apply Z.eqb_eq in Hch.
    destruct (device data) as [dev|] eqn:Edev; [|discriminate].
    apply negb_false_iff, String.eqb_eq in Hdev. subst dev.
    repeat split; congruence.
Qed.

(** X1: after [jack_update] on a session, the three stored user settings are
    those of the call: the flag and the channel count (as an [int]) read from
    the settings object and the current name of the source; the source itself
    is the one the session had. *)
Theorem jack_update_mirrors_settings (e : env) (settings : obs_data)
    (data : jack_data) :
  exists data' log,
    jack_update e (Some data) settings = (Some data', log)
    /\ start_jack_server data' = obs_data_get_bool settings "startjack"
    /\ channels data' = to_int (obs_data_get_int settings "channels")
    /\ device data' = Some (source_name e (source data))
    /\ source data' = source data.
Proof. exact (jack_update_fields e settings data). Qed.

(** After one update nothing differs any more, as long as the source keeps
    its name. *)
Lemma settings_differ_after_update (e e' : env) (settings : obs_data)
    (data data' : jack_data) :
  fst (jack_update e (Some data) settings) = Some data' ->
  source_name e' (source data) = source_name e (source data) ->
  settings_differ e' data' settings = false.
Proof.
  destruct (jack_update_fields e settings data)
    as (d & log & Hupd & Hst & Hch & Hdev & Hsrc).
  rewrite Hupd. cbn [fst]. intros [= <-] Hname.
  unfold settings_differ.
  rewrite Hst, Hch, Hdev, Hsrc, Hname.
  rewrite Bool.eqb_reflx, Z.eqb_refl, String.eqb_refl. reflexivity.
Qed.

(** X2: a second [jack_update] with the same settings, while the source
    keeps its name, changes nothing and calls neither [deactivate_jack] nor
    [jack_init], whatever the first one did and whatever the audio server
    would answer now.  In particular a failed connection is not tried
    again. *)
Theorem jack_update_twice (e e' : env) (settings : obs_data) (data : jack_data) :
  source_name e' (source data) = source_name e (source data) ->
  exists data' log,
    jack_update e (Some data) settings = (Some data', log)
    /\ jack_update e' (Some data') settings = (Some data', update_reads).
Proof.
  intros Hname.
  destruct (jack_update_fields e settings data) as (d & log & Hupd & _).
  exists d, log. split; [exact Hupd|].
  apply jack_update_same.
  apply (settings_differ_after_update e e' settings data d); [|exact Hname].
  rewrite Hupd. reflexivity.
Qed.

Lemma jack_update_twice_witness :
  exists data' log,
    jack_update Sample.env_unreachable (Some Sample.stereo) (Sample.settings_of 4 true)
    = (Some data', log)
    /\ jack_update Sample.env_connected (Some data') (Sample.settings_of 4 true)
       = (Some data', update_reads).
Proof.
  apply (jack_update_twice Sample.env_unreachable Sample.env_connected
           (Sample.settings_of 4 true) Sample.stereo).
  reflexivity.
Defined.

(** ** Memory and the mutex *)

Lemma count_calls_app (f : event -> bool) (l1 l2 : list event) :
  count_calls f (l1 ++ l2) = (count_calls f l1 + count_calls f l2)%nat.
Proof. unfold count_calls. rewrite List.filter_app. apply length_app. Qed.

(** The log of one update, whichever way it went. *)
Lemma jack_update_log (e : env) (settings : obs_data) (data : jack_data) :
  exists tail,
    snd (jack_update e (Some data) settings)
    = update_reads ++ (if settings_differ e data settings then device_calls e data else [])
      ++ tail
    /\ (forall ev, In ev tail -> is_deactivate ev || is_init ev = true)
    /\ inits_guarded false tail = true.
Proof.
  destruct (settings_differ e data settings) eqn:H.
  - rewrite (jack_update_differ e settings data H). cbv zeta. cbn [snd].
    eexists. split; [reflexivity|]. split.
    + intros ev Hin. destruct (init_status _ =? 0); cbn in Hin;
        intuition (subst; reflexivity).
    + destruct (init_status _ =? 0); reflexivity.
  - rewrite (jack_update_same e settings data H). cbn [snd].
    exists []. split; [rewrite !app_nil_r; reflexivity|].
    split; [intros ev []|reflexivity].
Qed.

Lemma count_calls_none (f : event -> bool) (l : list event) :
  (forall ev, In ev l -> f ev = false) -> count_calls f l = 0%nat.
Proof.
  unfold count_calls. induction l as [|a l IH]; intros H; [reflexivity|].
  cbn. rewrite (H a (or_introl eq_refl)). apply IH. intros ev Hin. apply H. now right.
Qed.

(** How many copies and frees of the device name one update makes. *)
Lemma jack_update_device_counts (e : env) (settings : obs_data) (data : jack_data) :
  let log := snd (jack_update e (Some data) settings) in
  count_calls is_bstrdup log
  = (count_calls is_bfree_device log
     + match device data with Some _ => 0 | None => 1 end)%nat
  /\ count_calls is_bzalloc log = 0%nat
  /\ count_calls is_bfree_data log = 0%nat
  /\ count_calls is_mutex_init log = 0%nat
  /\ count_calls is_mutex_destroy log = 0%nat.
Proof.
  cbv zeta.
  destruct (jack_update_log e settings data) as (tail & -> & Htail & _).
  assert (Hnone : forall f, (forall ev, is_deactivate ev || is_init ev = true -> f ev = false) ->
                            count_calls f tail = 0%nat).
  { intros f Hf. apply count_calls_none. intros ev Hin. apply Hf, Htail, Hin. }
  rewrite !count_calls_app.
  rewrite !Hnone by (intros [] Hev; try reflexivity; discriminate Hev).
  unfold device_calls, settings_differ.
  destruct (device data) as [dev|].
  - destruct (String.eqb dev _); cbn [negb]; rewrite ?orb_true_r, ?orb_false_r;
      [destruct (_ || _)|]; repeat split; reflexivity.
  - rewrite orb_true_r. repeat split; reflexivity.
Qed.


(** ** [jack_create], case by case *)

(** The three ways [jack_create] can end, read off the answer of the audio
    server to the one [jack_init] it runs. *)
Lemma jack_create_cases (e : env) (settings : obs_data) (src : obs_source_t) :
  let before :=
    session_before_init e (set_channels (-1) (set_source src bzalloc_jack_data))
      settings in
  let r := jack_server e before in
  let log :=
    [Call_bzalloc; Call_pthread_mutex_init] ++ update_reads
    ++ [Call_bstrdup (source_name e src); Call_deactivate_jack;
        Call_jack_init (init_status r)] in
  let destroyed :=
    [Call_deactivate_jack; Call_bfree_device; Call_pthread_mutex_destroy;
     Call_bfree_data] in
  jack_create e settings src
  = if init_status r =? 0 then
      match init_client r with
      | Some c => (Some (set_jack_client (Some c) before), log)
      | None => (None, log ++ destroyed)
      end
    else (None, log ++ [Call_deactivate_jack] ++ destroyed).
Proof.
  cbv zeta. rewrite jack_create_unfold.
  rewrite (jack_update_differ e settings _ (fresh_session_differs e settings src)).
  cbv zeta.
  destruct (init_status _ =? 0).
  - destruct (init_client _) as [c|]; reflexivity.
  - reflexivity.
Qed.

(** X4: a session returned by [jack_create] has a client handle, the source
    it was created for, that source's name as device name, and the flag and
    channel count read from the settings.  On the way [jack_create] made one
    allocation, initialised the mutex, copied the name, and called
    [deactivate_jack] and then [jack_init], which returned 0; it released
    nothing. *)
Theorem jack_create_success (e : env) (settings : obs_data) (src : obs_source_t)
    (data : jack_data) :
  fst (jack_create e settings src) = Some data ->
  is_Some (jack_client data)
  /\ source data = src
  /\ device data = Some (source_name e src)
  /\ channels data = to_int (obs_data_get_int settings "channels")
  /\ start_jack_server data = obs_data_get_bool settings "startjack"
  /\ snd (jack_create e settings src)
     = [Call_bzalloc; Call_pthread_mutex_init] ++ update_reads
       ++ [Call_bstrdup (source_name e src); Call_deactivate_jack; Call_jack_init 0].
Proof.
  rewrite (jack_create_cases e settings src). cbv zeta.
  destruct (init_status _ =? 0) eqn:Hst; [|discriminate].
  apply Z.eqb_eq in Hst. rewrite Hst.
  destruct (init_client _) as [c|]; [|discriminate].
  cbn [fst snd]. intros [= <-].
  repeat split. eexists. reflexivity.
Qed.

Lemma jack_create_success_witness :
  is_Some (jack_client Sample.stereo)
  /\ source Sample.stereo = 7%nat
  /\ device Sample.stereo = Some "mic"
  /\ channels Sample.stereo = 2
  /\ start_jack_server Sample.stereo = false
  /\ snd (jack_create Sample.env_connected (Sample.settings_of 2 false) 7%nat)
     = [Call_bzalloc; Call_pthread_mutex_init] ++ update_reads
       ++ [Call_bstrdup "mic"; Call_deactivate_jack; Call_jack_init 0].
Proof.
  apply (jack_create_success Sample.env_connected (Sample.settings_of 2 false) 7%nat
           Sample.stereo).
  reflexivity.
Defined.

(** X5: [jack_create] returns a session exactly when the [jack_init] it runs
    returns 0 and leaves a client handle.  A status of 0 without client, or a
    client with another status, ends in NULL. *)
Theorem jack_create_returns_session_iff (e : env) (settings : obs_data)
    (src : obs_source_t) :
  let r :=
    jack_server e
      (session_before_init e (set_channels (-1) (set_source src bzalloc_jack_data))
         settings) in
  is_Some (fst (jack_create e settings src))
  <-> init_status r = 0 /\ is_Some (init_client r).
Proof.
  cbv zeta. rewrite (jack_create_cases e settings src). cbv zeta.
  destruct (init_status _ =? 0) eqn:Hst.
  - apply Z.eqb_eq in Hst.
    destruct (init_client _) as [c|]; cbn [fst]; split.
    + intros _. split; [exact Hst | eexists; reflexivity].
    + intros _. eexists. reflexivity.
    + intros [x Hx]. discriminate.
    + intros [_ [x Hx]]. discriminate.
  - apply Z.eqb_neq in Hst. cbn [fst]. split.
    + intros [x Hx]. discriminate.
    + intros [H0 _]. contradiction.
Qed.

(** X6: when [jack_create] returns NULL it has released all it took: the
    session is allocated once and freed once, the mutex initialised once and
    destroyed once, the device name copied once and freed once, and the free
    of the session is the last call. *)
Theorem jack_create_failure_releases (e : env) (settings : obs_data)
    (src : obs_source_t) :
  fst (jack_create e settings src) = None ->
  let log := snd (jack_create e settings src) in
  count_calls is_bzalloc log = 1%nat
  /\ count_calls is_bfree_data log = 1%nat
  /\ count_calls is_mutex_init log = 1%nat
  /\ count_calls is_mutex_destroy log = 1%nat
  /\ count_calls is_bstrdup log = 1%nat
  /\ count_calls is_bfree_device log = 1%nat
  /\ last log = Some Call_bfree_data.
Proof.
  rewrite (jack_create_cases e settings src). cbv zeta.
  destruct (init_status _ =? 0).
  - destruct (init_client _) as [c|]; [discriminate|].
    intros _. repeat split.
  - intros _. repeat split.
Qed.

Lemma jack_create_failure_releases_witness :
  count_calls is_bfree_data
    (snd (jack_create Sample.env_partial (Sample.settings_of 2 false) 7%nat)) = 1%nat.
Proof.
  apply (jack_create_failure_releases Sample.env_partial (Sample.settings_of 2 false)
           7%nat).
  reflexivity.
Defined.

(** ** A whole life: create, updates, destroy *)

Lemma inits_guarded_weaken (b : bool) (log : list event) :
  inits_guarded false log = true -> inits_guarded b log = true.
Proof.
  destruct log as [|ev log]; [reflexivity|].
  destruct ev; cbn; try (intros H; exact H). discriminate.
Qed.

Lemma inits_guarded_app (b : bool) (l1 l2 : list event) :
  inits_guarded b l1 = true ->
  inits_guarded false l2 = true ->
  inits_guarded b (l1 ++ l2) = true.
Proof.
  revert b. induction l1 as [|ev l1 IH]; intros b H1 H2.
  - apply inits_guarded_weaken, H2.
  - destruct ev; cbn in *; try (apply IH; assumption).
    apply andb_prop in H1 as [-> H1]. cbn. apply IH; assumption.
Qed.

Lemma inits_guarded_device_calls (e : env) (data : jack_data) :
  inits_guarded false (device_calls e data) = true.
Proof.
  unfold device_calls.
  destruct (device data) as [dev|]; [destruct (String.eqb _ _)|]; reflexivity.
Qed.

Lemma jack_update_inits_guarded (e : env) (settings : obs_data) (data : jack_data) :
  inits_guarded false (snd (jack_update e (Some data) settings)) = true.
Proof.
  destruct (jack_update_log e settings data) as (tail & -> & _ & Htail).
  apply inits_guarded_app; [reflexivity|].
  apply inits_guarded_app; [|exact Htail].
  destruct (settings_differ e data settings);
    [apply inits_guarded_device_calls | reflexivity].
Qed.

(** What holds of a session and its log for as long as the session lives. *)
Lemma lifecycle_invariant (src : obs_source_t) (data : jack_data) (log : list event) :
  lifecycle src data log ->
  source data = src
  /\ is_Some (device data)
  /\ count_calls is_bzalloc log = 1%nat
  /\ count_calls is_bfree_data log = 0%nat
  /\ count_calls is_mutex_init log = 1%nat
  /\ count_calls is_mutex_destroy log = 0%nat
  /\ count_calls is_bstrdup log = S (count_calls is_bfree_device log)
  /\ inits_guarded false log = true.
Proof.
  induction 1 as [e settings data log Hc
                 | e settings data data' log log' _ IH Hu].
  - cbn [Plugin.create Plugin.jack_output_capture] in Hc.
    pose proof (jack_create_cases e settings src) as Hcases. cbv zeta in Hcases.
    rewrite Hc in Hcases.
    destruct (init_status _ =? 0) eqn:Hst;
      [destruct (init_client _) as [c|] eqn:Hcl|]; try discriminate.
    injection Hcases as -> ->.
    repeat split. eexists. reflexivity.
  - cbn [Plugin.update Plugin.jack_output_capture] in Hu.
    destruct IH as (Hsrc & [dev Hdev] & Hz & Hf & Hmi & Hmd & Hs & Hg).
    destruct (jack_update_fields e settings data)
      as (d & l & Hupd & _ & _ & Hdev' & Hsrc').
    rewrite Hu in Hupd. injection Hupd as <- <-.
    pose proof (jack_update_device_counts e settings data) as Hcnt.
    cbv zeta in Hcnt. rewrite Hu, Hdev in Hcnt. cbn [snd] in Hcnt.
    destruct Hcnt as (Hs' & Hz' & Hf' & Hmi' & Hmd').
    pose proof (jack_update_inits_guarded e settings data) as Hg'.
    rewrite Hu in Hg'. cbn [snd] in Hg'.
    rewrite !count_calls_app, Hz, Hf, Hmi, Hmd, Hs, Hz', Hf', Hmi', Hmd', Hs'.
    repeat split; try lia; try congruence.
    + rewrite Hdev'. eexists. reflexivity.
    + apply inits_guarded_app; assumption.
Qed.

(** X7: over a whole life of a source (created through the table of hooks,
    updated any number of times, destroyed) every allocation is undone
    exactly once: one session allocated and freed, one mutex initialised and
    destroyed, as many device names freed as copied. *)
Theorem lifecycle_releases_everything (src : obs_source_t) (data : jack_data)
    (log : list event) :
  lifecycle src data log ->
  let total := log ++ Plugin.destroy Plugin.jack_output_capture (Some data) in
  count_calls is_bzalloc total = 1%nat
  /\ count_calls is_bfree_data total = 1%nat
  /\ count_calls is_mutex_init total = 1%nat
  /\ count_calls is_mutex_destroy total = 1%nat
  /\ count_calls is_bstrdup total = count_calls is_bfree_device total.
Proof.
  intros Hlife. cbv zeta. cbn [Plugin.destroy Plugin.jack_output_capture].
  destruct (lifecycle_invariant src data log Hlife)
    as (_ & [dev Hdev] & Hz & Hf & Hmi & Hmd & Hs & _).
  rewrite jack_destroy_session, Hdev.
  rewrite !count_calls_app, Hz, Hf, Hmi, Hmd, Hs.
  repeat split; cbn; lia.
Qed.

Lemma lifecycle_sample :
  lifecycle 7%nat (set_jack_client None (set_channels 4 Sample.stereo))
    (snd (jack_create Sample.env_connected (Sample.settings_of 2 false) 7%nat)
     ++ snd (jack_update Sample.env_partial (Some Sample.stereo)
               (Sample.settings_of 4 false))).
Proof.
  apply (lifecycle_update 7%nat Sample.env_partial (Sample.settings_of 4 false)
           Sample.stereo).
  - apply (lifecycle_create 7%nat Sample.env_connected (Sample.settings_of 2 false)).
    reflexivity.
  - reflexivity.
Defined.

Lemma lifecycle_releases_everything_witness :
  let total :=
    (snd (jack_create Sample.env_connected (Sample.settings_of 2 false) 7%nat)
     ++ snd (jack_update Sample.env_partial (Some Sample.stereo)
               (Sample.settings_of 4 false)))
    ++ jack_destroy (Some (set_jack_client None (set_channels 4 Sample.stereo))) in
  count_calls is_bzalloc total = 1%nat
  /\ count_calls is_bfree_data total = 1%nat
  /\ count_calls is_mutex_init total = 1%nat
  /\ count_calls is_mutex_destroy total = 1%nat
  /\ count_calls is_bstrdup total = count_calls is_bfree_device total.
Proof.
  exact (lifecycle_releases_everything 7%nat _ _ lifecycle_sample).
Defined.

(** X8: over a whole life of a source every [jack_init] comes directly after
    a [deactivate_jack]: the wrapper is never asked to connect a session it
    was not first told to disconnect. *)
Theorem lifecycle_inits_guarded (src : obs_source_t) (data : jack_data)
    (log : list event) :
  lifecycle src data log ->
  inits_guarded false
    (log ++ Plugin.destroy Plugin.jack_output_capture (Some data)) = true.
Proof.
  intros Hlife. cbn [Plugin.destroy Plugin.jack_output_capture].
  destruct (lifecycle_invariant src data log Hlife)
    as (_ & _ & _ & _ & _ & _ & _ & Hg).
  apply inits_guarded_app; [exact Hg|].
  rewrite jack_destroy_session.
  destruct (device data); reflexivity.
Qed.

Lemma lifecycle_inits_guarded_witness :
  inits_guarded false
    ((snd (jack_create Sample.env_connected (Sample.settings_of 2 false) 7%nat)
      ++ snd (jack_update Sample.env_partial (Some Sample.stereo)
                (Sample.settings_of 4 false)))
     ++ jack_destroy (Some (set_jack_client None (set_channels 4 Sample.stereo))))
  = true.
Proof.
  exact (lifecycle_inits_guarded 7%nat _ _ lifecycle_sample).
Defined.

(** X9: a live session always belongs to the source it was created for and
    always has a device name. *)
Theorem lifecycle_source_and_device (src : obs_source_t) (data : jack_data)
    (log : list event) :
  lifecycle src data log ->
  source data = src /\ is_Some (device data).
Proof.
  intros Hlife.
  destruct (lifecycle_invariant src data log Hlife) as (Hsrc & Hdev & _).
  split; assumption.
Qed.

Lemma lifecycle_source_and_device_witness :
  source (set_jack_client None (set_channels 4 Sample.stereo)) = 7%nat
  /\ is_Some (device (set_jack_client None (set_channels 4 Sample.stereo))).
Proof.
  exact (lifecycle_source_and_device 7%nat _ _ lifecycle_sample).
Defined.

(** ** The callback, entry by entry *)

Lemma port_index_Some (name : string) (j : Z) :
  port_index name = Some j -> port_name j = Some name.
Proof.
  unfold port_index, channel_ports_property_names. cbn [index_of].
  repeat match goal with
         | |- context [String.eqb name ?s] =>
             destruct (String.eqb name s) eqn:?E;
             [apply String.eqb_eq in E; subst name; intros [= <-]; reflexivity|];
             clear E
         end.
  discriminate.
Qed.

Lemma port_name_index (name : string) (j : Z) :
  port_name j = Some name -> port_index name = Some j.
Proof.
  intros H. destruct (port_name_Some j name H) as [Hj _].
  assert (Hcases : j = 0 \/ j = 1 \/ j = 2 \/ j = 3 \/ j = 4 \/ j = 5 \/ j = 6 \/ j = 7)
    by lia.
  repeat destruct Hcases as [-> | Hcases]; try subst j;
    cbn in H; injection H as <-; reflexivity.
Qed.

Lemma update_property_absent (f : obs_property -> obs_property) (name : string)
    (props : obs_properties) :
  has_prop props name = false -> update_property f name props = props.
Proof.
  unfold has_prop, update_property.
  induction props as [|p props IH]; cbn; [reflexivity|].
  destruct (String.eqb (prop_name p) name); cbn; [discriminate|].
  intros H. rewrite (IH H). reflexivity.
Qed.

Lemma has_prop_map (f : obs_property -> obs_property) (props : obs_properties)
    (name : string) :
  (forall p, prop_name (f p) = prop_name p) ->
  has_prop (List.map f props) name = has_prop props name.
Proof.
  intros Hf. unfold has_prop.
  induction props as [|p props IH]; cbn; [reflexivity|].
  rewrite Hf, IH. reflexivity.
Qed.

(** The loop body, without the look-up: a name that is not in the panel
    changes no entry. *)
Lemma set_port_visible_exact (visible : bool) (i : Z) (name : string)
    (props : obs_properties) (log : list event) :
  port_name i = Some name ->
  set_port_visible visible i (props, log)
  = Some (update_property (with_visible visible) name props,
          log ++ [Call_obs_property_modified (obs_properties_get props name)]).
Proof.
  intros Hname. unfold set_port_visible. rewrite Hname.
  cbn [mbind option_bind fst snd]. unfold obs_property_modified.
  do 2 f_equal.
  unfold obs_properties_get, obs_property_set_visible.
  destruct (has_prop props name) eqn:Hhas; [reflexivity|].
  symmetry. apply update_property_absent, Hhas.
Qed.

Lemma show_range_name (visible : bool) (i n : Z) (p : obs_property) :
  prop_name (show_range visible i n p) = prop_name p.
Proof.
  unfold show_range. destruct (port_index _); [destruct (_ && _)|]; reflexivity.
Qed.

(** The loop in closed form. *)
Lemma for_loop_closed (visible : bool) (n : nat) :
  forall (i : Z) (props : obs_properties) (log : list event),
  0 <= i -> i + Z.of_nat n <= 8 ->
  for_loop n i (set_port_visible visible) (props, log)
  = Some (List.map (show_range visible i (Z.of_nat n)) props,
          log ++ List.map (refresh_of props)
                   (take n (drop (Z.to_nat i) channel_ports_property_names))).
Proof.
  induction n as [|n IH]; intros i props log Hi Hn.
  - cbn [for_loop take List.map]. rewrite app_nil_r. do 2 f_equal.
    symmetry. rewrite <- (List.map_id props) at 2. apply List.map_ext.
    intros p. unfold show_range. destruct (port_index _); [|reflexivity].
    replace ((i <=? z) && (z <? i + Z.of_nat 0)) with false; [reflexivity|].
    symmetry. apply andb_false_iff.
    destruct (Z.leb_spec i z); [right; apply Z.ltb_ge; lia | left; reflexivity].
  - destruct (port_name_defined i ltac:(lia)) as [name_i Hname_i].
    cbn [for_loop]. rewrite (set_port_visible_exact visible i name_i props log Hname_i).
    rewrite (IH (i + 1) _ _ ltac:(lia) ltac:(lia)).
    destruct (port_name_Some i name_i Hname_i) as [_ Hlook].
    f_equal. f_equal.
    + unfold update_property. rewrite List.map_map. apply List.map_ext.
      intros p. unfold show_range.
      destruct (String.eqb (prop_name p) name_i) eqn:Heq.
      * apply String.eqb_eq in Heq. cbn [with_visible prop_name].
        rewrite (port_name_index (prop_name p) i) by (rewrite Heq; exact Hname_i).
        replace ((i + 1 <=? i) && (i <? i + 1 + Z.of_nat n)) with false
          by (symmetry; apply andb_false_iff; left; apply Z.leb_gt; lia).
        replace ((i <=? i) && (i <? i + Z.of_nat (S n))) with true
          by (symmetry; apply andb_true_iff; split;
              [apply Z.leb_le | apply Z.ltb_lt]; lia).
        reflexivity.
      * destruct (port_index (prop_name p)) as [j|] eqn:Hj; [|reflexivity].
        assert (j <> i).
        { intros ->. apply port_index_Some in Hj.
          rewrite Hj in Hname_i. injection Hname_i as Hsame.
          rewrite Hsame, String.eqb_refl in Heq. discriminate. }
        replace ((i + 1 <=? j) && (j <? i + 1 + Z.of_nat n))
          with ((i <=? j) && (j <? i + Z.of_nat (S n))); [reflexivity|].
        destruct (Z.leb_spec i j), (Z.leb_spec (i + 1) j),
          (Z.ltb_spec j (i + Z.of_nat (S n))), (Z.ltb_spec j (i + 1 + Z.of_nat n));
          cbn; try reflexivity; lia.
    + rewrite <- app_assoc. f_equal.
      rewrite (drop_S _ _ _ Hlook). cbn [take List.map]. f_equal.
      replace (Z.to_nat (i + 1)) with (S (Z.to_nat i)) by lia.
      apply List.map_ext. intros name. unfold refresh_of, obs_properties_get.
      unfold update_property. rewrite has_prop_map; [reflexivity|].
      intros p. destruct (String.eqb _ _); reflexivity.
Qed.

Lemma show_channels_name (c : Z) (p : obs_property) :
  prop_name (show_channels c p) = prop_name p.
Proof. unfold show_channels. destruct (port_index _); reflexivity. Qed.

(** The callback in closed form, for a channel count between 0 and 8. *)
Lemma channel_count_changed_closed (props : obs_properties) (p : property_ptr)
    (settings : obs_data) (c : Z) :
  0 <= c <= 8 ->
  to_int (obs_data_get_int settings "channels") = c ->
  jack_input_channel_count_changed props p settings
  = Some (true, List.map (show_channels c) props,
          Call_obs_data_get_int "channels" :: refresh_calls props).
Proof.
  intros Hc Hread. unfold jack_input_channel_count_changed, for_range.
  rewrite Hread. unfold JACK_INPUT_MAX_PORTS.
  rewrite (for_loop_closed true (Z.to_nat (c - 0)) 0 props _ ltac:(lia) ltac:(lia)).
  cbn [mbind option_bind].
  rewrite (for_loop_closed false (Z.to_nat (8 - c)) c _ _ ltac:(lia) ltac:(lia)).
  cbn [mbind option_bind fst snd].
  do 2 f_equal.
  - f_equal. rewrite List.map_map. apply List.map_ext. intros q.
    unfold show_range, show_channels.
    destruct (port_index (prop_name q)) as [j|] eqn:Hj.
    + assert (Hjr : 0 <= j < 8) by (apply port_index_Some, port_name_Some in Hj; tauto).
      destruct (Z.ltb_spec j c).
      * replace ((0 <=? j) && (j <? 0 + Z.of_nat (Z.to_nat (c - 0)))) with true
          by (symmetry; apply andb_true_iff; split;
              [apply Z.leb_le | apply Z.ltb_lt]; lia).
        cbn [with_visible prop_name]. rewrite Hj.
        replace ((c <=? j) && (j <? c + Z.of_nat (Z.to_nat (8 - c)))) with false
          by (symmetry; apply andb_false_iff; left; apply Z.leb_gt; lia).
        reflexivity.
      * replace ((0 <=? j) && (j <? 0 + Z.of_nat (Z.to_nat (c - 0)))) with false
          by (symmetry; apply andb_false_iff; right; apply Z.ltb_ge; lia).
        rewrite Hj.
        replace ((c <=? j) && (j <? c + Z.of_nat (Z.to_nat (8 - c)))) with true
          by (symmetry; apply andb_true_iff; split;
              [apply Z.leb_le | apply Z.ltb_lt]; lia).
        reflexivity.
    + rewrite Hj. reflexivity.
  - cbn [app]. f_equal. unfold refresh_calls.
    change (Z.to_nat 0) with 0%nat. rewrite drop_0.
    rewrite (List.map_ext
               (refresh_of (List.map (show_range true 0 (Z.of_nat (Z.to_nat (c - 0)))) props))
               (refresh_of props)).
    2:{ intros name. unfold refresh_of, obs_properties_get.
        rewrite has_prop_map; [reflexivity | apply show_range_name]. }
    rewrite <- List.map_app.
    replace (Z.to_nat (c - 0)) with (Z.to_nat c) by lia.
    rewrite (take_ge (drop (Z.to_nat c) channel_ports_property_names))
      by (rewrite length_drop;
          change (length channel_ports_property_names) with 8%nat; lia).
    rewrite take_drop. reflexivity.
Qed.

(** X10: for a channel count [c] between 0 and 8 the callback returns true
    and rewrites the panel entry by entry: the port list of index [j] is
    shown when [j < c] and hidden otherwise, every other entry is as it was.
    The run reads [channels] once and then refreshes each of the eight port
    lists once, in the order of the array, whatever [c] is. *)
Theorem channel_count_changed_entrywise (props : obs_properties) (p : property_ptr)
    (settings : obs_data) (c : Z) :
  0 <= c <= 8 ->
  to_int (obs_data_get_int settings "channels") = c ->
  jack_input_channel_count_changed props p settings
  = Some (true, List.map (show_channels c) props,
          Call_obs_data_get_int "channels" :: refresh_calls props).
Proof. exact (channel_count_changed_closed props p settings c). Qed.

Lemma channel_count_changed_entrywise_witness :
  jack_input_channel_count_changed Sample.panel None (Sample.settings_of 0 false)
  = Some (true, List.map (show_channels 0) Sample.panel,
          Call_obs_data_get_int "channels" :: refresh_calls Sample.panel).
Proof.
  apply (channel_count_changed_entrywise Sample.panel None (Sample.settings_of 0 false) 0);
    [lia | reflexivity].
Defined.

Lemma lookup_property_show_channels (c : Z) (props : obs_properties) (name : string) :
  port_index name = None ->
  lookup_property (List.map (show_channels c) props) name = lookup_property props name.
Proof.
  intros Hname. unfold lookup_property.
  induction props as [|q props IH]; cbn; [reflexivity|].
  rewrite show_channels_name.
  destruct (String.eqb (prop_name q) name) eqn:Heq; [|exact IH].
  apply String.eqb_eq in Heq. unfold show_channels. rewrite Heq, Hname. reflexivity.
Qed.

(** X11: the callback changes nothing but the shown flag of port lists: the
    panel keeps its entries in place, each with its name, description, type
    and modified-callback, and an entry whose name is not in the array of
    port-list names is found unchanged. *)
Theorem channel_count_changed_frame (props : obs_properties) (p : property_ptr)
    (settings : obs_data) (c : Z) :
  0 <= c <= 8 ->
  to_int (obs_data_get_int settings "channels") = c ->
  exists props' log,
    jack_input_channel_count_changed props p settings = Some (true, props', log)
    /\ Forall2 (fun q q' =>
                  prop_name q' = prop_name q /\ prop_desc q' = prop_desc q
                  /\ prop_type q' = prop_type q /\ prop_modified q' = prop_modified q)
         props props'
    /\ forall name, name ∉ channel_ports_property_names ->
         lookup_property props' name = lookup_property props name.
Proof.
  intros Hc Hread.
  rewrite (channel_count_changed_closed props p settings c Hc Hread).
  eexists _, _. split; [reflexivity|]. split.
  - clear. induction props as [|q props IH]; cbn; constructor; [|exact IH].
    unfold show_channels. destruct (port_index _); repeat split.
  - intros name Hnot. apply lookup_property_show_channels.
    destruct (port_index name) as [j|] eqn:Hj; [|reflexivity].
    exfalso. apply Hnot.
    apply port_index_Some, port_name_Some in Hj as [_ Hj].
    apply list_elem_of_lookup. eauto.
Qed.

Lemma channel_count_changed_frame_witness :
  exists props' log,
    jack_input_channel_count_changed Sample.panel None (Sample.settings_of 3 false)
    = Some (true, props', log)
    /\ Forall2 (fun q q' =>
                  prop_name q' = prop_name q /\ prop_desc q' = prop_desc q
                  /\ prop_type q' = prop_type q /\ prop_modified q' = prop_modified q)
         Sample.panel props'
    /\ forall name, name ∉ channel_ports_property_names ->
         lookup_property props' name = lookup_property Sample.panel name.
Proof.
  apply (channel_count_changed_frame Sample.panel None (Sample.settings_of 3 false) 3);
    [lia | reflexivity].
Defined.

Lemma show_channels_twice (c1 c2 : Z) (q : obs_property) :
  show_channels c2 (show_channels c1 q) = show_channels c2 q.
Proof.
  unfold show_channels at 2. destruct (port_index (prop_name q)) as [j|] eqn:Hj.
  - unfold show_channels. cbn [with_visible prop_name]. rewrite Hj. reflexivity.
  - reflexivity.
Qed.

Lemma channel_count_changed_panel_closed (settings : obs_data) (props : obs_properties)
    (c : Z) :
  0 <= c <= 8 ->
  to_int (obs_data_get_int settings "channels") = c ->
  channel_count_changed_panel settings props = Some (List.map (show_channels c) props).
Proof.
  intros Hc Hread. unfold channel_count_changed_panel.
  rewrite (channel_count_changed_closed props None settings c Hc Hread). reflexivity.
Qed.

(** X12: the last run decides.  For channel counts between 0 and 8, a run
    of the callback after an earlier run leaves the very panel that it would
    have left without the earlier run; so a run repeated is a run done once. *)
Theorem channel_count_changed_last_wins (props : obs_properties)
    (s1 s2 : obs_data) :
  0 <= to_int (obs_data_get_int s1 "channels") <= 8 ->
  0 <= to_int (obs_data_get_int s2 "channels") <= 8 ->
  (p1 ← channel_count_changed_panel s1 props; channel_count_changed_panel s2 p1)
  = channel_count_changed_panel s2 props
  /\ is_Some (channel_count_changed_panel s2 props).
Proof.
  intros H1 H2.
  rewrite (channel_count_changed_panel_closed s1 props _ H1 eq_refl).
  cbn [mbind option_bind].
  rewrite !(channel_count_changed_panel_closed s2 _ _ H2 eq_refl).
  split; [|eexists; reflexivity].
  f_equal. rewrite List.map_map. apply List.map_ext. intros q.
  apply show_channels_twice.
Qed.

Lemma channel_count_changed_last_wins_witness :
  (p1 ← channel_count_changed_panel (Sample.settings_of 7 false) Sample.panel;
   channel_count_changed_panel (Sample.settings_of 1 false) p1)
  = channel_count_changed_panel (Sample.settings_of 1 false) Sample.panel
  /\ is_Some (channel_count_changed_panel (Sample.settings_of 1 false) Sample.panel).
Proof.
  apply (channel_count_changed_last_wins Sample.panel (Sample.settings_of 7 false)
           (Sample.settings_of 1 false)); vm_compute; split; discriminate.
Defined.

(** ** Channel counts the array of names cannot serve *)

Lemma port_name_outside (i : Z) : ~ (0 <= i < 8) -> port_name i = None.
Proof.
  intros Hi. unfold port_name.
  destruct (i <? 0) eqn:Hneg; [reflexivity|].
  apply Z.ltb_ge in Hneg. apply lookup_ge_None.
  change (length channel_ports_property_names) with 8%nat. lia.
Qed.

(** A loop that runs past index 7 reads outside the array. *)
Lemma for_loop_past_end (visible : bool) (n : nat) :
  forall (i : Z) (st : obs_properties * list event),
  0 <= i <= 8 -> 8 < i + Z.of_nat n ->
  for_loop n i (set_port_visible visible) st = None.
Proof.
  induction n as [|n IH]; intros i st Hi Hn; [lia|].
  cbn [for_loop].
  destruct (Z.eq_dec i 8) as [->|Hne].
  - unfold set_port_visible. rewrite port_name_outside by lia. reflexivity.
  - destruct (port_name_defined i ltac:(lia)) as [name Hname].
    destruct st as [props log].
    rewrite (set_port_visible_exact visible i name props log Hname).
    apply IH; lia.
Qed.

(** X13: the callback has a defined result exactly for channel counts from
    0 to 8.  A larger count makes the first loop read
    [channel_ports_property_names] at index 8, a negative count makes the
    second loop read it at a negative index. *)
Theorem channel_count_changed_defined_iff (props : obs_properties) (p : property_ptr)
    (settings : obs_data) :
  is_Some (jack_input_channel_count_changed props p settings)
  <-> 0 <= to_int (obs_data_get_int settings "channels") <= 8.
Proof.
  set (c := to_int (obs_data_get_int settings "channels")).
  split.
  - intros [r Hr].
    destruct (Z_lt_dec c 0) as [Hneg|Hpos].
    + exfalso. revert Hr.
      unfold jack_input_channel_count_changed, for_range. fold c.
      replace (Z.to_nat (c - 0)) with 0%nat by lia.
      cbn [for_loop mbind option_bind].
      destruct (Z.to_nat (JACK_INPUT_MAX_PORTS - c)) as [|k] eqn:Hk;
        [unfold JACK_INPUT_MAX_PORTS in Hk; lia|].
      cbn [for_loop]. unfold set_port_visible.
      rewrite port_name_outside by lia. discriminate.
    + destruct (Z_le_dec c 8) as [Hle|Hgt]; [lia|].
      exfalso. revert Hr.
      unfold jack_input_channel_count_changed, for_range. fold c.
      rewrite (for_loop_past_end true (Z.to_nat (c - 0)) 0) by lia.
      discriminate.
  - intros Hc.
    rewrite (channel_count_changed_closed props p settings c Hc eq_refl).
    eexists. reflexivity.
Qed.

(** ** The panel and the defaults *)

(** X14: [jack_input_properties] builds the same panel for every session: it
    holds the eight port lists, each an editable list without callback of its
    own and shown, next to [channels] and [startjack]; the mutex is locked
    and unlocked once.  On a NULL handle, whose mutex it would lock, it has no
    defined result. *)
Theorem jack_input_properties_panel (e : env) :
  jack_input_properties e None = None
  /\ exists panel,
       (forall data,
          jack_input_properties e (Some data)
          = Some (panel, [Call_pthread_mutex_lock; Call_pthread_mutex_unlock]))
       /\ has_all_port_lists panel = true
       /\ Forall (fun name =>
                    lookup_property panel name
                    = Some (mk_property name name PropEditableList true None))
            channel_ports_property_names
       /\ has_prop panel "channels" = true
       /\ has_prop panel "startjack" = true.
Proof.
  split; [reflexivity|].
  eexists. split; [intros data; reflexivity|].
  split; [reflexivity|]. split; [|split; reflexivity].
  repeat constructor.
Qed.

(** X15: settings on which the user has set neither [channels] nor
    [startjack] read, after [jack_input_defaults], as two channels and no
    server start: [jack_update] leaves the session with just that. *)
Theorem jack_update_with_defaults (e : env) (settings : obs_data) (data : jack_data) :
  user_values settings !! "channels" = None ->
  user_values settings !! "startjack" = None ->
  exists data' log,
    jack_update e (Some data) (jack_input_defaults settings) = (Some data', log)
    /\ channels data' = 2
    /\ start_jack_server data' = false.
Proof.
  intros Hch Hst.
  destruct (jack_update_fields e (jack_input_defaults settings) data)
    as (d & log & Hupd & Hflag & Hcount & _).
  exists d, log. split; [exact Hupd|].
  rewrite Hflag, Hcount.
  unfold obs_data_get_int, obs_data_get_bool, item, jack_input_defaults,
    obs_data_set_default_bool, obs_data_set_default_int.
  cbn [user_values default_values]. rewrite Hch, Hst.
  rewrite lookup_insert_eq.
  rewrite lookup_insert_ne by discriminate. rewrite lookup_insert_eq.
  split; reflexivity.
Qed.

Lemma jack_update_with_defaults_witness :
  exists data' log,
    jack_update Sample.env_connected (Some Sample.nine) (jack_input_defaults empty_data)
    = (Some data', log)
    /\ channels data' = 2
    /\ start_jack_server data' = false.
Proof.
  apply (jack_update_with_defaults Sample.env_connected empty_data Sample.nine);
    reflexivity.
Defined.

(** X16: registering the defaults twice is the same as registering them
    once. *)
Theorem jack_input_defaults_idempotent (settings : obs_data) :
  jack_input_defaults (jack_input_defaults settings) = jack_input_defaults settings.
Proof.
  unfold jack_input_defaults, obs_data_set_default_bool, obs_data_set_default_int.
  cbn [user_values default_values]. f_equal.
  apply map_eq. intros k.
  destruct (decide (k = "startjack")) as [->|Hs].
  { by rewrite !lookup_insert_eq. }
  rewrite !(lookup_insert_ne _ "startjack") by congruence.
  destruct (decide (k = "channels")) as [->|Hc].
  { by rewrite !lookup_insert_eq. }
  rewrite !(lookup_insert_ne _ "channels") by congruence.
  by rewrite !lookup_insert_ne by congruence.
Qed.

(** ** When [jack_update] reconnects *)

Lemma settings_differ_true_iff (e : env) (settings : obs_data) (data : jack_data) :
  settings_differ e data settings = true
  <-> obs_data_get_bool settings "startjack" <> start_jack_server data
      \/ to_int (obs_data_get_int settings "channels") <> channels data
      \/ device data <> Some (source_name e (source data)).
Proof.
  unfold settings_differ. rewrite !orb_true_iff, !negb_true_iff.
  rewrite Z.eqb_neq.
  assert (Hb : Bool.eqb (obs_data_get_bool settings "startjack") (start_jack_server data)
               = false
               <-> obs_data_get_bool settings "startjack" <> start_jack_server data).
  { destruct (obs_data_get_bool _ _), (start_jack_server data); cbn;
      split; congruence. }
  assert (Hd : match device data with
               | Some dev => negb (String.eqb dev (source_name e (source data)))
               | None => true
               end = true
               <-> device data <> Some (source_name e (source data))).
  { destruct (device data) as [dev|]; [|split; [discriminate|reflexivity]].
    rewrite negb_true_iff, String.eqb_neq. split; congruence. }
  rewrite Hb, Hd. tauto.
Qed.

(** X17: one [jack_update] runs [jack_init] at most once, and it runs it
    exactly when the flag read from the settings, the channel count read from
    the settings (as an [int]) or the name of the source differs from what the
    session stores; a session without device name always counts as
    different. *)
Theorem jack_update_reconnects_iff (e : env) (settings : obs_data) (data : jack_data) :
  let log := snd (jack_update e (Some data) settings) in
  (count_calls is_init log <= 1)%nat
  /\ (count_calls is_init log = 1%nat
      <-> obs_data_get_bool settings "startjack" <> start_jack_server data
          \/ to_int (obs_data_get_int settings "channels") <> channels data
          \/ device data <> Some (source_name e (source data))).
Proof.
  cbv zeta. rewrite <- settings_differ_true_iff.
  destruct (settings_differ e data settings) eqn:H.
  - rewrite (jack_update_differ e settings data H). cbv zeta. cbn [snd].
    assert (Hcount : forall tail st,
      count_calls is_init tail = 0%nat ->
      count_calls is_init
        (update_reads ++ device_calls e data
         ++ [Call_deactivate_jack; Call_jack_init st] ++ tail) = 1%nat).
    { intros tail st Ht. rewrite !count_calls_app, Ht.
      unfold device_calls.
      destruct (device data) as [dev|]; [destruct (String.eqb _ _)|]; reflexivity. }
    rewrite Hcount by (destruct (init_status _ =? 0); reflexivity).
    split; [lia|]. split; reflexivity.
  - rewrite (jack_update_same e settings data H). cbn.
    split; [lia|]. split; discriminate.
Qed.
